(** * LUNARA backend: loyalty points and order settlement

    A shallow embedding of [src/index.ts] (the Hono worker) over the tables
    of [src/schema.sql], and the properties of the points engine stated
    over it.

    Modelling conventions.
    - JavaScript numbers that hold cent amounts and point counts are
      integers ([Z]).  Where the source divides or multiplies by a
      non-integer constant before [Math.floor] / [Math.round], the
      expression is evaluated exactly in [Q] and floored with [Qfloor]:
      this is the value of the JavaScript expression for the non-negative
      cent amounts a shop handles (magnitudes far below 2^53).
    - [Infinity] occurs as the upper bound of the last tier, so numbers
      compared against tier bounds are [num]: an integer or [Infinity].
    - [crypto.randomUUID()] is a counter in the database state: every
      call returns an identifier never returned before.
    - D1 statements are functions on the database state.  The constraints
      declared in [schema.sql] (PRIMARY KEY, FOREIGN KEY, which D1
      enforces) make a statement raise; the handlers run without a
      transaction, so what ran before the raise stays written. *)

From Stdlib Require Import ZArith QArith Qround Lia List String Ascii Bool.
From stdpp Require Import gmap strings list fin_maps.
Import ListNotations.

Local Open Scope string_scope.
Local Open Scope Z_scope.

(** ** Numbers *)

(** A JavaScript number as far as the tier table needs it. *)
Inductive num : Type :=
| Int (z : Z)
| Infinity.

(** [a <= b] on [num]. *)
Definition num_leb (a b : num) : bool :=
  match a, b with
  | Int x, Int y => x <=? y
  | Int _, Infinity => true
  | Infinity, Int _ => false
  | Infinity, Infinity => true
  end.

(** [a >= b] on [num]. *)
Definition num_geb (a b : num) : bool := num_leb b a.

(** [Math.round]: the nearest integer, halves towards +Infinity. *)
Definition Math_round (q : Q) : Z := Qfloor (q + (1 # 2))%Q.

(** [x || d] where [x] is an optional number: [undefined] and [0] are
    falsy. *)
Definition or_default (x : option Z) (d : Z) : Z :=
  match x with
  | Some v => if v =? 0 then d else v
  | None => d
  end.

(** ** LUNARA points configuration ([POINTS_CONFIG]) *)

Module Tier.
Record t : Type := mk
  { name : string;
    min : Z;
    max : num;
    bonusMultiplier : Q }.
End Tier.

Definition MOON : Tier.t := Tier.mk "MOON" 0 (Int 499) 1%Q.
Definition ECLIPSE : Tier.t := Tier.mk "ECLIPSE" 500 (Int 1499) (11 # 10)%Q.
Definition NOVA : Tier.t := Tier.mk "NOVA" 1500 Infinity (5 # 4)%Q.

Module POINTS_CONFIG.
Definition EARN_PER_EURO : Z := 1.
Definition SIGNUP_BONUS : Z := 50.
Definition NEWSLETTER_BONUS : Z := 25.
Definition REVIEW_BONUS : Z := 100.
Definition POINTS_PER_EURO_DISCOUNT : Z := 20.
Definition MAX_DISCOUNT_PERCENT : Z := 20.
Definition MIN_ORDER_FOR_REDEMPTION : Z := 30.
Definition TIERS : list Tier.t := [MOON; ECLIPSE; NOVA].
End POINTS_CONFIG.
Import POINTS_CONFIG.

(** ** Utility functions *)

(** The predicate of [getTier]'s [find]:
    [points >= t.min && points <= t.max]. *)
Definition tier_matches (points : num) (t : Tier.t) : bool :=
  num_geb points (Int (Tier.min t)) && num_leb points (Tier.max t).

(** [TIERS.find(...) || TIERS[0]]. *)
Definition getTier (points : num) : Tier.t :=
  match find (tier_matches points) TIERS with
  | Some t => t
  | None => nth 0 TIERS MOON
  end.

Definition calculatePointsEarned (amountCents : Z) (tier : Tier.t) : Z :=
  let euros : Q := (inject_Z amountCents / 100)%Q in
  let basePoints : Z := Qfloor (euros * inject_Z EARN_PER_EURO)%Q in
  Qfloor (inject_Z basePoints * Tier.bonusMultiplier tier)%Q.

(** The two caps computed inside [calculateMaxDiscount]. *)
Definition maxByPercent (cartTotalCents : Z) : Z :=
  Qfloor (inject_Z cartTotalCents * (inject_Z MAX_DISCOUNT_PERCENT / 100))%Q.

Definition maxByBalance (pointsBalance : Z) : Z :=
  Qfloor (inject_Z pointsBalance / inject_Z POINTS_PER_EURO_DISCOUNT)%Q * 100.

Record MaxDiscount : Type :=
  { maxPoints : Z;
    maxDiscountCents : Z }.

Definition calculateMaxDiscount (cartTotalCents pointsBalance : Z) : MaxDiscount :=
  let maxDiscountCents := Z.min (maxByPercent cartTotalCents) (maxByBalance pointsBalance) in
  let maxPoints :=
    Qfloor (inject_Z maxDiscountCents / 100 * inject_Z POINTS_PER_EURO_DISCOUNT)%Q in
  {| maxPoints := maxPoints; maxDiscountCents := maxDiscountCents |}.


(** ** Strings *)

(** [c.toLowerCase()] on the ASCII letters. *)
Definition lower_ascii (c : ascii) : ascii :=
  let n := nat_of_ascii c in
  if ((65 <=? n) && (n <=? 90))%nat then ascii_of_nat (n + 32) else c.

Fixpoint toLowerCase (s : string) : string :=
  match s with
  | EmptyString => EmptyString
  | String c s' => String (lower_ascii c) (toLowerCase s')
  end.

(** [s.includes(c)] for a one-character needle. *)
Fixpoint includes (s : string) (c : ascii) : bool :=
  match s with
  | EmptyString => false
  | String d s' => Ascii.eqb d c || includes s' c
  end.

(** [!s] for an optional string: [undefined] and the empty string are
    falsy. *)
Definition falsy (s : option string) : bool :=
  match s with
  | None => true
  | Some s => String.eqb s ""
  end.

(** [s || null]. *)
Definition or_null (s : option string) : option string :=
  if falsy s then None else s.

(** ** Persisted schema ([schema.sql])

    Of each table the columns the handlers below read or write; the
    timestamp columns, the password hash and the verification and reset
    tokens are left out. *)

Abbreviation Id := nat (only parsing).

Inductive TxType : Type := EARN | SPEND | ADJUST | EXPIRE.
Inductive TxSource : Type := ORDER | SIGNUP | NEWSLETTER | REVIEW | ADMIN | REFUND.
Inductive OrderStatus : Type :=
  pending | paid | shipped | delivered | cancelled | refunded.

Record User : Type :=
  { u_email : string;
    u_name : option string;
    u_points_balance : Z;
    u_tier : string }.

Record PointsTransaction : Type :=
  { pt_id : Id;
    pt_user_id : Id;
    pt_amount : Z;
    pt_type : TxType;
    pt_source : option TxSource;
    pt_reference_id : option Id }.

Record CartItem : Type :=
  { productId : Z;
    variant : string * string;
    quantity : Z;
    price : Q;
    item_name : string }.

Record Order : Type :=
  { o_user_id : option Id;
    o_stripe_session_id : option string;
    o_status : OrderStatus;
    o_subtotal : Z;
    o_discount : Z;
    o_points_used : Z;
    o_points_earned : Z;
    o_total : Z;
    o_items_json : list CartItem }.

Record DB : Type :=
  { users : gmap nat User;
    points_transactions : list PointsTransaction;
    orders : gmap nat Order;
    newsletter_subscribers : list (Id * string);
    next_id : Id }.

Definition empty_db : DB :=
  {| users := ∅; points_transactions := []; orders := ∅;
     newsletter_subscribers := []; next_id := 0%nat |}.

Definition set_users (f : gmap nat User -> gmap nat User) (db : DB) : DB :=
  {| users := f (users db); points_transactions := points_transactions db;
     orders := orders db; newsletter_subscribers := newsletter_subscribers db;
     next_id := next_id db |}.

Definition set_points_transactions
    (f : list PointsTransaction -> list PointsTransaction) (db : DB) : DB :=
  {| users := users db; points_transactions := f (points_transactions db);
     orders := orders db; newsletter_subscribers := newsletter_subscribers db;
     next_id := next_id db |}.

Definition set_orders (f : gmap nat Order -> gmap nat Order) (db : DB) : DB :=
  {| users := users db; points_transactions := points_transactions db;
     orders := f (orders db); newsletter_subscribers := newsletter_subscribers db;
     next_id := next_id db |}.

Definition set_newsletter_subscribers
    (f : list (Id * string) -> list (Id * string)) (db : DB) : DB :=
  {| users := users db; points_transactions := points_transactions db;
     orders := orders db; newsletter_subscribers := f (newsletter_subscribers db);
     next_id := next_id db |}.

Definition set_next_id (n : Id) (db : DB) : DB :=
  {| users := users db; points_transactions := points_transactions db;
     orders := orders db; newsletter_subscribers := newsletter_subscribers db;
     next_id := n |}.

(** ** Statements: state with exceptions

    A computation maps the database to the database it leaves behind and
    either a value or nothing, when a statement raised.  There is no
    rollback: the database returned with a raise holds every write made
    before it. *)

Definition M (A : Type) : Type := DB -> DB * option A.

Definition ret {A : Type} (a : A) : M A := fun db => (db, Some a).

Definition raise {A : Type} : M A := fun db => (db, None).

Definition bind {A B : Type} (m : M A) (k : A -> M B) : M B :=
  fun db =>
    match m db with
    | (db', Some a) => k a db'
    | (db', None) => (db', None)
    end.

Notation "'let*' x ':=' m 'in' k" := (bind m (fun x => k))
  (at level 10, x name, m at level 100, k at level 200).
Notation "m ';;' k" := (bind m (fun _ => k))
  (at level 100, k at level 200, right associativity).

(** [try { m } catch { return handler }]. *)
Definition try_catch {A : Type} (m : M A) (handler : A) : DB -> DB * A :=
  fun db =>
    match m db with
    | (db', Some a) => (db', a)
    | (db', None) => (db', handler)
    end.

(** [if (c) { m }] for a statement block. *)
Definition when (c : bool) (m : M unit) : M unit :=
  if c then m else ret tt.

(** [generateId()]. *)
Definition generateId : M Id :=
  fun db => (set_next_id (S (next_id db)) db, Some (next_id db)).

(** *** users *)

(** [SELECT id FROM users WHERE email = ?]. *)
Definition select_user_id_by_email (email : string) : M (option Id) :=
  fun db =>
    (db, Some (fst <$> find (fun kv : nat * User => String.eqb (u_email (snd kv)) email)
                            (map_to_list (users db)))).

(** [SELECT ... FROM users WHERE id = ?]. *)
Definition select_user (id : Id) : M (option User) :=
  fun db => (db, Some (users db !! id)).

(** [INSERT INTO users]: [id] is the primary key and [email] is unique. *)
Definition insert_user (id : Id) (u : User) : M unit :=
  fun db =>
    match users db !! id, select_user_id_by_email (u_email u) db with
    | None, (_, Some None) => (set_users (insert id u) db, Some tt)
    | _, _ => (db, None)
    end.

(** [UPDATE users SET ... WHERE id = ?]: no row, no change. *)
Definition update_user (id : Id) (f : User -> User) : M unit :=
  fun db => (set_users (alter f id) db, Some tt).

Definition add_points (n : Z) (u : User) : User :=
  {| u_email := u_email u; u_name := u_name u;
     u_points_balance := u_points_balance u + n; u_tier := u_tier u |}.

Definition with_tier (t : string) (u : User) : User :=
  {| u_email := u_email u; u_name := u_name u;
     u_points_balance := u_points_balance u; u_tier := t |}.

Definition with_name (n : option string) (u : User) : User :=
  {| u_email := u_email u; u_name := n;
     u_points_balance := u_points_balance u; u_tier := u_tier u |}.

(** *** points_transactions *)

(** [INSERT INTO points_transactions]: [id] is the primary key and
    [user_id] references [users(id)]. *)
Definition insert_points_transaction (r : PointsTransaction) : M unit :=
  fun db =>
    if existsb (fun r' => Nat.eqb (pt_id r') (pt_id r)) (points_transactions db)
    then (db, None)
    else match users db !! pt_user_id r with
         | None => (db, None)
         | Some _ => (set_points_transactions (fun l => (l ++ [r])%list) db, Some tt)
         end.

(** [DELETE FROM points_transactions WHERE user_id = ?]. *)
Definition delete_points_transactions (uid : Id) : M unit :=
  fun db =>
    (set_points_transactions
       (List.filter (fun r => negb (Nat.eqb (pt_user_id r) uid))) db, Some tt).

(** *** orders *)

(** [INSERT INTO orders]: [id] is the primary key and a non-null
    [user_id] references [users(id)]. *)
Definition insert_order (id : Id) (o : Order) : M unit :=
  fun db =>
    match orders db !! id with
    | Some _ => (db, None)
    | None =>
        match o_user_id o with
        | Some uid =>
            match users db !! uid with
            | None => (db, None)
            | Some _ => (set_orders (insert id o) db, Some tt)
            end
        | None => (set_orders (insert id o) db, Some tt)
        end
    end.

(** [SELECT * FROM orders WHERE id = ?]. *)
Definition select_order (id : Id) : M (option Order) :=
  fun db => (db, Some (orders db !! id)).

(** [UPDATE orders SET ... WHERE id = ?]. *)
Definition update_order (id : Id) (f : Order -> Order) : M unit :=
  fun db => (set_orders (alter f id) db, Some tt).

Definition with_status (st : OrderStatus) (o : Order) : Order :=
  {| o_user_id := o_user_id o; o_stripe_session_id := o_stripe_session_id o;
     o_status := st; o_subtotal := o_subtotal o; o_discount := o_discount o;
     o_points_used := o_points_used o; o_points_earned := o_points_earned o;
     o_total := o_total o; o_items_json := o_items_json o |}.

Definition with_points_earned (n : Z) (o : Order) : Order :=
  {| o_user_id := o_user_id o; o_stripe_session_id := o_stripe_session_id o;
     o_status := o_status o; o_subtotal := o_subtotal o; o_discount := o_discount o;
     o_points_used := o_points_used o; o_points_earned := n;
     o_total := o_total o; o_items_json := o_items_json o |}.

Definition with_stripe_session_id (sid : string) (o : Order) : Order :=
  {| o_user_id := o_user_id o; o_stripe_session_id := Some sid;
     o_status := o_status o; o_subtotal := o_subtotal o; o_discount := o_discount o;
     o_points_used := o_points_used o; o_points_earned := o_points_earned o;
     o_total := o_total o; o_items_json := o_items_json o |}.

(** Whether an order belongs to [uid]. *)
Definition order_of (uid : Id) (o : Order) : bool :=
  match o_user_id o with
  | Some u => Nat.eqb u uid
  | None => false
  end.

(** [DELETE FROM orders WHERE user_id = ?]. *)
Definition delete_orders (uid : Id) : M unit :=
  fun db =>
    (set_orders (filter (fun kv : nat * Order => order_of uid (snd kv) = false)) db,
     Some tt).

(** [DELETE FROM users WHERE id = ?]: raises while a points transaction
    or an order still references the row. *)
Definition delete_user (uid : Id) : M unit :=
  fun db =>
    if existsb (fun r => Nat.eqb (pt_user_id r) uid) (points_transactions db)
       || existsb (fun kv : nat * Order => order_of uid (snd kv)) (map_to_list (orders db))
    then (db, None)
    else (set_users (delete uid) db, Some tt).

(** *** newsletter_subscribers *)

(** [SELECT id FROM newsletter_subscribers WHERE email = ?]. *)
Definition select_subscriber (email : string) : M (option Id) :=
  fun db =>
    (db, Some (fst <$> find (fun r : Id * string => String.eqb (snd r) email)
                            (newsletter_subscribers db))).

(** [INSERT INTO newsletter_subscribers]: [id] is the primary key and
    [email] is unique. *)
Definition insert_subscriber (id : Id) (email : string) : M unit :=
  fun db =>
    if existsb (fun r : Id * string => Nat.eqb (fst r) id || String.eqb (snd r) email)
               (newsletter_subscribers db)
    then (db, None)
    else (set_newsletter_subscribers (fun l => (l ++ [(id, email)])%list) db, Some tt).

(** ** Requests and responses *)

(** What [getSession] returns for a valid bearer token.  The session
    store is not part of the database: a handler takes the session its
    request resolves to. *)
Record Session : Type :=
  { userId : Id;
    email : string }.

Inductive Error : Type :=
| EmailAndPasswordRequired
| PasswordTooShort
| EmailAlreadyRegistered
| RegistrationFailed
| NotLoggedIn
| UserNotFound
| MinOrderNotMet
| CartEmpty
| CheckoutFailed
| MissingSignature
| WebhookProcessingFailed
| InvalidEmail
| SubscriptionFailed
| UpdateFailed
| DeletionFailed.

(** [c.json(body)] with status 200, or [c.json({ error }, status)]. *)
Inductive Response (A : Type) : Type :=
| Ok (body : A)
| Fail (status : Z) (error : Error).
Arguments Ok {A} body.
Arguments Fail {A} status error.

(** ** Auth routes *)

Record RegisterBody : Type :=
  { rb_id : Id;
    rb_email : string;
    rb_name : option string;
    rb_points : Z;
    rb_tier : string }.

(** [POST /api/auth/register].  The statement that marks the new user as
    verified writes columns that are left out, and the session goes to
    the session store; neither changes the database below. *)
Definition register (email password name : option string)
  : DB -> DB * Response RegisterBody :=
  try_catch
    (if falsy email || falsy password
     then ret (Fail 400 EmailAndPasswordRequired)
     else
       let email := toLowerCase (default "" email) in
       if (String.length (default "" password) <? 8)%nat
       then ret (Fail 400 PasswordTooShort)
       else
         let* existing := select_user_id_by_email email in
         match existing with
         | Some _ => ret (Fail 400 EmailAlreadyRegistered)
         | None =>
             let* userId := generateId in
             insert_user userId
               {| u_email := email; u_name := or_null name;
                  u_points_balance := SIGNUP_BONUS; u_tier := "MOON" |} ;;
             let* txId := generateId in
             insert_points_transaction
               {| pt_id := txId; pt_user_id := userId; pt_amount := SIGNUP_BONUS;
                  pt_type := EARN; pt_source := Some SIGNUP;
                  pt_reference_id := None |} ;;
             ret (Ok {| rb_id := userId; rb_email := email; rb_name := or_null name;
                        rb_points := SIGNUP_BONUS; rb_tier := "MOON" |})
         end)
    (Fail 500 RegistrationFailed).

(** [PUT /api/auth/update] and [PATCH /api/auth/profile]. *)
Definition update_profile (session : option Session) (name : option string)
  : DB -> DB * Response unit :=
  fun db =>
    match session with
    | None => (db, Fail 401 NotLoggedIn)
    | Some session =>
        try_catch
          (update_user (userId session) (with_name (or_null name)) ;;
           ret (Ok tt))
          (Fail 500 UpdateFailed) db
    end.

(** [DELETE /api/auth/delete]. *)
Definition delete_account (session : option Session) : DB -> DB * Response unit :=
  fun db =>
    match session with
    | None => (db, Fail 401 NotLoggedIn)
    | Some session =>
        try_catch
          (delete_points_transactions (userId session) ;;
           delete_orders (userId session) ;;
           delete_user (userId session) ;;
           ret (Ok tt))
          (Fail 500 DeletionFailed) db
    end.

(** ** Points routes *)

Record DiscountBody : Type :=
  { pointsAvailable : Z;
    maxPointsUsable : Z;
    body_maxDiscountCents : Z;
    pointsToUse : Z;
    discountCents : Z;
    newTotal : Z }.

(** [POST /api/points/calculate-discount]; it only reads the database. *)
Definition calculate_discount (session : option Session) (cartTotalCents : Z)
    (pointsToUse : option Z) (db : DB) : Response DiscountBody :=
  match session with
  | None => Fail 401 NotLoggedIn
  | Some session =>
      match users db !! userId session with
      | None => Fail 404 UserNotFound
      | Some user =>
          if cartTotalCents <? MIN_ORDER_FOR_REDEMPTION * 100
          then Fail 400 MinOrderNotMet
          else
            let md := calculateMaxDiscount cartTotalCents (u_points_balance user) in
            let actualPointsToUse :=
              Z.min (or_default pointsToUse (maxPoints md)) (maxPoints md) in
            let discountCents :=
              Qfloor (inject_Z actualPointsToUse / inject_Z POINTS_PER_EURO_DISCOUNT)%Q
              * 100 in
            Ok {| pointsAvailable := u_points_balance user;
                  maxPointsUsable := maxPoints md;
                  body_maxDiscountCents := maxDiscountCents md;
                  pointsToUse := actualPointsToUse;
                  discountCents := discountCents;
                  newTotal := cartTotalCents - discountCents |}
      end
  end.

(** ** Checkout / Stripe routes *)

(** A Stripe line item: its name, [unit_amount] and [quantity]. *)
Record LineItem : Type :=
  { li_name : string;
    li_unit_amount : Z;
    li_quantity : Z }.

(** The metadata of a checkout session.  Stripe hands it back in the
    [checkout.session.completed] event; there every key may be missing.
    [pointsUsed] and [discountCents] travel as decimal strings and are
    the integers those strings denote. *)
Record Metadata : Type :=
  { orderId : option Id;
    md_userId : option Id;
    pointsUsed : option Z;
    md_discountCents : option Z }.

(** The argument of [stripe.checkout.sessions.create]; [discounts] is the
    amount of the points coupon. *)
Record SessionCreateParams : Type :=
  { line_items : list LineItem;
    customer_email : option string;
    metadata : Metadata;
    discounts : option Z }.

(** The reply of [create-session], and with it what the handler sent to
    Stripe. *)
Record CheckoutBody : Type :=
  { sessionId : string;
    url : string;
    body_orderId : Id;
    stripe_request : SessionCreateParams }.

(** [Math.round(item.price * 100)]. *)
Definition unit_amount (item : CartItem) : Z :=
  Math_round (price item * 100)%Q.

(** The value of [subtotalCents] after the loop over the items. *)
Definition subtotalCents_of (items : list CartItem) : Z :=
  fold_left (fun acc item => acc + unit_amount item * quantity item) items 0.

(** [POST /api/checkout/create-session].  [checkoutSession] is what the
    Stripe calls return, the session's id and url, or nothing when one of
    them throws. *)
Definition create_session (session : option Session) (items : list CartItem)
    (pointsToRedeem : option Z) (checkoutSession : option (string * string))
  : DB -> DB * Response CheckoutBody :=
  try_catch
    (if (length items =? 0)%nat
     then ret (Fail 400 CartEmpty)
     else
       let subtotalCents := subtotalCents_of items in
       let lineItems :=
         map (fun item => {| li_name := item_name item;
                             li_unit_amount := unit_amount item;
                             li_quantity := quantity item |}) items in
       let* redemption :=
         match session, pointsToRedeem with
         | Some session, Some pointsToRedeem =>
             if 0 <? pointsToRedeem
             then
               let* user := select_user (userId session) in
               match user with
               | Some user =>
                   if MIN_ORDER_FOR_REDEMPTION * 100 <=? subtotalCents
                   then
                     let md := calculateMaxDiscount subtotalCents (u_points_balance user) in
                     let actualPointsUsed := Z.min pointsToRedeem (maxPoints md) in
                     ret (Qfloor (inject_Z actualPointsUsed
                                  / inject_Z POINTS_PER_EURO_DISCOUNT)%Q * 100,
                          actualPointsUsed)
                   else ret (0, 0)
               | None => ret (0, 0)
               end
             else ret (0, 0)
         | _, _ => ret (0, 0)
         end in
       let discountCents := fst redemption in
       let actualPointsUsed := snd redemption in
       let lineItems :=
         if 0 <? discountCents
         then (lineItems ++ [{| li_name := "LUNARA Punkte-Rabatt";
                                li_unit_amount := - discountCents;
                                li_quantity := 1 |}])%list
         else lineItems in
       let* orderId := generateId in
       let finalTotalCents := subtotalCents - discountCents in
       insert_order orderId
         {| o_user_id := userId <$> session; o_stripe_session_id := None;
            o_status := pending; o_subtotal := subtotalCents;
            o_discount := discountCents; o_points_used := actualPointsUsed;
            o_points_earned := 0; o_total := finalTotalCents;
            o_items_json := items |} ;;
       let request :=
         {| line_items := List.filter (fun li => 0 <? li_unit_amount li) lineItems;
            customer_email := email <$> session;
            metadata := {| orderId := Some orderId;
                           md_userId := userId <$> session;
                           pointsUsed := Some actualPointsUsed;
                           md_discountCents := Some discountCents |};
            discounts := if 0 <? discountCents then Some discountCents else None |} in
       match checkoutSession with
       | None => raise
       | Some (id, url) =>
           update_order orderId (with_stripe_session_id id) ;;
           ret (Ok {| sessionId := id; url := url; body_orderId := orderId;
                      stripe_request := request |})
       end)
    (Fail 500 CheckoutFailed).

(** A verified Stripe event: its [type] and the metadata of
    [event.data.object]. *)
Record Event : Type :=
  { ev_type : string;
    ev_metadata : option Metadata }.

Definition no_metadata : Metadata :=
  {| orderId := None; md_userId := None; pointsUsed := None;
     md_discountCents := None |}.

(** [POST /api/webhooks/stripe].  [signature] is the [stripe-signature]
    header and [constructEvent] what [stripe.webhooks.constructEvent]
    returns for the body, nothing when it throws. *)
Definition stripe_webhook (signature : option string) (constructEvent : option Event)
  : DB -> DB * Response unit :=
  fun db =>
    if falsy signature
    then (db, Fail 400 MissingSignature)
    else
      try_catch
        (let* event := match constructEvent with
                       | Some event => ret event
                       | None => raise
                       end in
         when (String.eqb (ev_type event) "checkout.session.completed")
           (let md := default no_metadata (ev_metadata event) in
            match orderId md with
            | None => ret tt
            | Some orderId =>
                update_order orderId (with_status paid) ;;
                let* order := select_order orderId in
                match md_userId md, order with
                | Some userId, Some order =>
                    let pointsUsedNum := default 0 (pointsUsed md) in
                    when (0 <? pointsUsedNum)
                      (update_user userId (add_points (- pointsUsedNum)) ;;
                       let* txId := generateId in
                       insert_points_transaction
                         {| pt_id := txId; pt_user_id := userId;
                            pt_amount := - pointsUsedNum; pt_type := SPEND;
                            pt_source := Some ORDER;
                            pt_reference_id := Some orderId |}) ;;
                    let* user := select_user userId in
                    match user with
                    | None => ret tt
                    | Some user =>
                        let tier := getTier (Int (u_points_balance user)) in
                        let pointsEarned := calculatePointsEarned (o_total order) tier in
                        update_user userId (add_points pointsEarned) ;;
                        let* txId := generateId in
                        insert_points_transaction
                          {| pt_id := txId; pt_user_id := userId;
                             pt_amount := pointsEarned; pt_type := EARN;
                             pt_source := Some ORDER;
                             pt_reference_id := Some orderId |} ;;
                        update_order orderId (with_points_earned pointsEarned) ;;
                        let newPoints :=
                          u_points_balance user - pointsUsedNum + pointsEarned in
                        let newTier := getTier (Int newPoints) in
                        when (negb (String.eqb (Tier.name newTier) (u_tier user)))
                          (update_user userId (with_tier (Tier.name newTier)))
                    end
                | _, _ => ret tt
                end
            end) ;;
         ret (Ok tt))
        (Fail 400 WebhookProcessingFailed) db.

(** ** Newsletter route *)

Inductive NewsletterBody : Type :=
| AlreadySubscribed
| Subscribed (bonusPoints : option Z).

(** [POST /api/newsletter/subscribe]. *)
Definition newsletter_subscribe (session : option Session) (email : option string)
  : DB -> DB * Response NewsletterBody :=
  try_catch
    (if falsy email || negb (includes (default "" email) "@"%char)
     then ret (Fail 400 InvalidEmail)
     else
       let email := toLowerCase (default "" email) in
       let* existing := select_subscriber email in
       match existing with
       | Some _ => ret (Ok AlreadySubscribed)
       | None =>
           let* id := generateId in
           insert_subscriber id email ;;
           match session with
           | Some session =>
               update_user (userId session) (add_points NEWSLETTER_BONUS) ;;
               let* txId := generateId in
               insert_points_transaction
                 {| pt_id := txId; pt_user_id := userId session;
                    pt_amount := NEWSLETTER_BONUS; pt_type := EARN;
                    pt_source := Some NEWSLETTER; pt_reference_id := None |} ;;
               ret (Ok (Subscribed (Some NEWSLETTER_BONUS)))
           | None => ret (Ok (Subscribed None))
           end
       end)
    (Fail 500 SubscriptionFailed).

(** ** The requests that write the database, and runs of them

    The remaining routes read the database (login, [/api/auth/me],
    points, orders) or write only what is left out (password, contact
    requests). *)

Inductive Request : Type :=
| Register (email password name : option string)
| UpdateProfile (session : option Session) (name : option string)
| DeleteAccount (session : option Session)
| CreateSession (session : option Session) (items : list CartItem)
    (pointsToRedeem : option Z) (checkoutSession : option (string * string))
| StripeWebhook (signature : option string) (constructEvent : option Event)
| NewsletterSubscribe (session : option Session) (email : option string).

(** The database a request leaves behind. *)
Definition handle (r : Request) (db : DB) : DB :=
  match r with
  | Register e p n => fst (register e p n db)
  | UpdateProfile s n => fst (update_profile s n db)
  | DeleteAccount s => fst (delete_account s db)
  | CreateSession s i p c => fst (create_session s i p c db)
  | StripeWebhook sg ev => fst (stripe_webhook sg ev db)
  | NewsletterSubscribe s e => fst (newsletter_subscribe s e db)
  end.

(** The requests of [rs] served one after the other. *)
Definition run (rs : list Request) (db : DB) : DB :=
  fold_left (fun db r => handle r db) rs db.

(** ** The ledger and its invariants *)

(** [balanceFor(userId)]: the sum of the amounts of the user's ledger
    entries. *)
Fixpoint balanceFor (uid : Id) (ledger : list PointsTransaction) : Z :=
  match ledger with
  | [] => 0
  | r :: ledger' =>
      (if Nat.eqb (pt_user_id r) uid then pt_amount r else 0) + balanceFor uid ledger'
  end.

(** Every user's cached balance is the sum of the user's ledger entries. *)
Definition ledger_sum (db : DB) : Prop :=
  forall (uid : Id) (u : User),
    users db !! uid = Some u ->
    u_points_balance u = balanceFor uid (points_transactions db).

(** Every ledger entry belongs to a user that exists. *)
Definition ledger_references_users (db : DB) : Prop :=
  Forall (fun r => is_Some (users db !! pt_user_id r)) (points_transactions db).

(** Every identifier in use was handed out by [generateId]. *)
Definition ids_generated (db : DB) : Prop :=
  Forall (fun r => (pt_id r < next_id db)%nat) (points_transactions db) /\
  (forall k : Id, is_Some (users db !! k) -> (k < next_id db)%nat) /\
  (forall k : Id, is_Some (orders db !! k) -> (k < next_id db)%nat).

Definition consistent (db : DB) : Prop :=
  ledger_sum db /\ ledger_references_users db /\ ids_generated db.

(** The ledger of [db'] keeps every entry of [db], in place, and may add
    entries after them. *)
Definition ledger_extends (db db' : DB) : Prop :=
  exists new : list PointsTransaction,
    points_transactions db' = (points_transactions db ++ new)%list.

(** A computation whose final database is related to the initial one,
    whether it returns or raises. *)
Definition respects {A : Type} (R : DB -> DB -> Prop) (m : M A) : Prop :=
  forall db : DB, R db (fst (m db)).

(** A step from a consistent database leads to a consistent one. *)
Definition keeps_consistent (db db' : DB) : Prop :=
  consistent db -> consistent db'.

(** The balance of a user, 0 when there is no such user. *)
Definition balance_of (uid : Id) (db : DB) : Z :=
  match users db !! uid with
  | Some u => u_points_balance u
  | None => 0
  end.

(** The stored tier of a user. *)
Definition tier_of (uid : Id) (db : DB) : option string :=
  u_tier <$> users db !! uid.

(** The claim of an append-only ledger, for one request: every entry
    recorded before the request is still recorded after it. *)
Definition keeps_ledger_entries (r : Request) (db : DB) : Prop :=
  forall e : PointsTransaction,
    In e (points_transactions db) -> In e (points_transactions (handle r db)).

(** The claim of an idempotent settlement, for one delivery of an event
    to a database: the delivery answers with success, adds no ledger
    entry and leaves the balance of [uid] as it was. *)
Definition redelivery_is_noop (signature : option string) (event : option Event)
    (uid : Id) (db : DB) : Prop :=
  snd (stripe_webhook signature event db) = Ok tt /\
  points_transactions (fst (stripe_webhook signature event db))
  = points_transactions db /\
  balance_of uid (fst (stripe_webhook signature event db)) = balance_of uid db.

(** The claim that the stored tier follows the balance, for one user. *)
Definition tier_follows_balance (uid : Id) (db : DB) : Prop :=
  tier_of uid db = Some (Tier.name (getTier (Int (balance_of uid db)))).

(** ** Scenarios

    Concrete requests and the databases they lead to, used to evaluate
    the handlers at explicit inputs. *)

Definition alice : Session := {| userId := 0%nat; email := "alice@lunara.de" |}.

Definition register_alice : Request :=
  Register (Some "Alice@Lunara.de") (Some "moonlight") (Some "Alice").

(** One piece of a product priced [cents / 100] euros. *)
Definition item (cents : Z) : CartItem :=
  {| productId := 1; variant := ("M", "black"); quantity := 1;
     price := (cents # 100)%Q; item_name := "Luna Set" |}.

(** The event Stripe delivers for a completed session with the given
    metadata. *)
Definition completed (md : Metadata) : option Event :=
  Some {| ev_type := "checkout.session.completed"; ev_metadata := Some md |}.

Definition metadata_of (orderId : Id) (uid : Id) (used discount : Z) : Metadata :=
  {| orderId := Some orderId; md_userId := Some uid; pointsUsed := Some used;
     md_discountCents := Some discount |}.

(** Alice buys for [cents] without redeeming points, and Stripe confirms
    the payment; [orderId] is the identifier the order gets. *)
Definition purchase (orderId : Id) (cents : Z) : list Request :=
  [CreateSession (Some alice) [item cents] None (Some ("cs_test", "https://checkout"));
   StripeWebhook (Some "t=1,v1=sig") (completed (metadata_of orderId 0%nat 0 0))].

(** Alice right after registration: balance 50. *)
Definition db_registered : DB := run [register_alice] empty_db.

(** Alice with balance 1000. *)
Definition db_1000 : DB := run (purchase 2%nat 95000) db_registered.

(** Alice with balance 480, tier MOON. *)
Definition db_480 : DB := run (purchase 2%nat 43000) db_registered.

(** Alice with balance 520, tier ECLIPSE. *)
Definition db_520 : DB := run (purchase 2%nat 47000) db_registered.

(** The confirmation of Alice's first purchase, order 2, as delivered. *)
Definition first_confirmation : option Event :=
  completed (metadata_of 2%nat 0%nat 0 0).

(** Alice, at balance 520, buys for 40.00 and redeems 40 points; the
    order gets identifier 4 and Stripe confirms the payment. *)
Definition redeeming_purchase : list Request :=
  [CreateSession (Some alice) [item 4000] (Some 40) (Some ("cs_test", "https://checkout"));
   StripeWebhook (Some "t=1,v1=sig") (completed (metadata_of 4%nat 0%nat 40 200))].

Definition db_redeemed : DB := run redeeming_purchase db_520.

(** ** Further routes *)

(** The [config] object of [GET /api/points]. *)
Record PointsConfigBody : Type :=
  { earnPerEuro : Z;
    pointsPerEuroDiscount : Z;
    maxDiscountPercent : Z;
    minOrderForRedemption : Z }.

Record PointsBody : Type :=
  { pb_points : Z;
    pb_tier : string;
    pb_current : Tier.t;
    pb_next : option Tier.t;
    pb_pointsToNext : Z;
    pb_config : PointsConfigBody }.

(** [GET /api/points]. *)
Definition get_points (session : option Session) (db : DB) : Response PointsBody :=
  match session with
  | None => Fail 401 NotLoggedIn
  | Some session =>
      match users db !! userId session with
      | None => Fail 404 UserNotFound
      | Some user =>
          let currentTier := getTier (Int (u_points_balance user)) in
          let nextTier := find (fun t => u_points_balance user <? Tier.min t) TIERS in
          Ok {| pb_points := u_points_balance user;
                pb_tier := Tier.name currentTier;
                pb_current := currentTier;
                pb_next := nextTier;
                pb_pointsToNext :=
                  match nextTier with
                  | Some nextTier => Tier.min nextTier - u_points_balance user
                  | None => 0
                  end;
                pb_config :=
                  {| earnPerEuro := EARN_PER_EURO;
                     pointsPerEuroDiscount := POINTS_PER_EURO_DISCOUNT;
                     maxDiscountPercent := MAX_DISCOUNT_PERCENT;
                     minOrderForRedemption := MIN_ORDER_FOR_REDEMPTION |} |}
      end
  end.

(** ** Invariants of the accounts *)

(** Every stored address is in lower case. *)
Definition emails_lowercase (db : DB) : Prop :=
  (forall (k : Id) (u : User),
     users db !! k = Some u -> toLowerCase (u_email u) = u_email u) /\
  Forall (fun r : Id * string => toLowerCase (snd r) = snd r)
    (newsletter_subscribers db).

(** No two users and no two subscribers share an address. *)
Definition emails_unique (db : DB) : Prop :=
  (forall (k1 k2 : Id) (u1 u2 : User),
     users db !! k1 = Some u1 -> users db !! k2 = Some u2 ->
     u_email u1 = u_email u2 -> k1 = k2) /\
  NoDup (map snd (newsletter_subscribers db)).

(** The identifiers of the subscribers were handed out by [generateId]. *)
Definition subscriber_ids_generated (db : DB) : Prop :=
  Forall (fun r : Id * string => (fst r < next_id db)%nat)
    (newsletter_subscribers db).

Definition accounts_ok (db : DB) : Prop :=
  emails_lowercase db /\ emails_unique db /\ subscriber_ids_generated db.

Definition keeps_accounts (db db' : DB) : Prop :=
  accounts_ok db -> accounts_ok db'.

(** The subscribers of [db'] are those of [db], in place, and possibly
    more after them. *)
Definition subscribers_extend (db db' : DB) : Prop :=
  exists new : list (Id * string),
    newsletter_subscribers db' = (newsletter_subscribers db ++ new)%list.

(** The discount in cents and the points used that [create-session]
    arrives at before it stores the order. *)
Definition redemption_of (session : option Session) (pointsToRedeem : option Z)
    (subtotalCents : Z) (db : DB) : Z * Z :=
  match session, pointsToRedeem with
  | Some session, Some pointsToRedeem =>
      match users db !! userId session with
      | Some user =>
          if (0 <? pointsToRedeem) && (MIN_ORDER_FOR_REDEMPTION * 100 <=? subtotalCents)
          then
            let used :=
              Z.min pointsToRedeem
                (maxPoints (calculateMaxDiscount subtotalCents (u_points_balance user))) in
            (used / POINTS_PER_EURO_DISCOUNT * 100, used)
          else (0, 0)
      | None => (0, 0)
      end
  | _, _ => (0, 0)
  end.

(** The order that [create-session] stores. *)
Definition order_of_checkout (session : option Session) (items : list CartItem)
    (pointsToRedeem : option Z) (db : DB) : Order :=
  let subtotalCents := subtotalCents_of items in
  let redemption := redemption_of session pointsToRedeem subtotalCents db in
  {| o_user_id := userId <$> session; o_stripe_session_id := None;
     o_status := pending; o_subtotal := subtotalCents;
     o_discount := fst redemption; o_points_used := snd redemption;
     o_points_earned := 0; o_total := subtotalCents - fst redemption;
     o_items_json := items |}.

(** ** Stored orders *)

(** What holds of an order from the time [create-session] stores it. *)
Definition order_ok (db : DB) (o : Order) : Prop :=
  o_total o = o_subtotal o - o_discount o /\
  o_discount o = o_points_used o / POINTS_PER_EURO_DISCOUNT * 100 /\
  (o_user_id o = None -> o_points_used o = 0) /\
  (o_points_used o <> 0 -> MIN_ORDER_FOR_REDEMPTION * 100 <= o_subtotal o) /\
  (o_status o = pending \/ o_status o = paid) /\
  (forall uid : Id, o_user_id o = Some uid -> is_Some (users db !! uid)).

Definition orders_ok (db : DB) : Prop :=
  forall (k : Id) (o : Order), orders db !! k = Some o -> order_ok db o.

Definition keeps_orders (db db' : DB) : Prop :=
  orders_ok db -> orders_ok db'.

(** ** The session store *)

(** The [Session] object that registration and login put into the
    [SESSIONS] namespace; times are in milliseconds. *)
Record SessionData : Type :=
  { sd_userId : Id;
    sd_email : string;
    sd_name : option string;
    sd_tier : string;
    sd_createdAt : Z;
    sd_expiresAt : Z }.

(** What the handlers read of it. *)
Definition session_of (s : SessionData) : Session :=
  {| userId := sd_userId s; email := sd_email s |}.

(** The namespace holds the objects themselves: [JSON.parse] gives back
    what [JSON.stringify] was given.  The expiry of entries by the store
    itself is not modelled; it only ever removes entries. *)
Abbreviation SESSIONS := (gmap string SessionData) (only parsing).

(** [authHeader.slice(7)]. *)
Definition slice7 (s : string) : string :=
  String.substring 7 (String.length s - 7) s.

(** The token of an [Authorization] header that
    [startsWith('Bearer ')]. *)
Definition bearer_token (authHeader : option string) : option string :=
  match authHeader with
  | Some h => if String.prefix "Bearer " h then Some (slice7 h) else None
  | None => None
  end.

(** [getSession(c)] at the time [now]. *)
Definition getSession (authHeader : option string) (now : Z) (kv : SESSIONS)
  : SESSIONS * option SessionData :=
  match bearer_token authHeader with
  | None => (kv, None)
  | Some token =>
      match kv !! token with
      | None => (kv, None)
      | Some session =>
          if sd_expiresAt session <? now
          then (delete token kv, None)
          else (kv, Some session)
      end
  end.

(** [POST /api/auth/logout]. *)
Definition logout (authHeader : option string) (kv : SESSIONS) : SESSIONS :=
  match bearer_token authHeader with
  | Some token => delete token kv
  | None => kv
  end.

(** [POST /api/auth/register] with the session it stores under the
    token that [generateToken] returned. *)
Definition register_request (email password name : option string)
    (sessionToken : string) (now : Z) (db : DB) (kv : SESSIONS)
  : DB * SESSIONS * Response RegisterBody :=
  match register email password name db with
  | (db', Ok body) =>
      (db',
       <[sessionToken := {| sd_userId := rb_id body; sd_email := rb_email body;
                            sd_name := rb_name body; sd_tier := "MOON";
                            sd_createdAt := now;
                            sd_expiresAt := now + 7 * 24 * 60 * 60 * 1000 |}]> kv,
       Ok body)
  | (db', Fail status error) => (db', kv, Fail status error)
  end.

(** [DELETE /api/auth/delete] with the session it resolves and
    invalidates. *)
Definition delete_request (authHeader : option string) (now : Z) (db : DB)
    (kv : SESSIONS) : DB * SESSIONS * Response unit :=
  match getSession authHeader now kv with
  | (kv', None) => (db, kv', Fail 401 NotLoggedIn)
  | (kv', Some session) =>
      match delete_account (Some (session_of session)) db with
      | (db', Ok body) => (db', logout authHeader kv', Ok body)
      | (db', Fail status error) => (db', kv', Fail status error)
      end
  end.

(** ** Order routes *)

Inductive OrderError : Type :=
| OrderNotFound
| NoPermission.

(** The [order] object of [GET /api/orders/:id], amounts in euros. *)
Record OrderDetails : Type :=
  { od_id : Id;
    od_status : OrderStatus;
    od_subtotal : Q;
    od_discount : Q;
    od_pointsUsed : Z;
    od_pointsEarned : Z;
    od_total : Q;
    od_items : list CartItem }.

Inductive OrderResponse : Type :=
| OrderOk (order : OrderDetails)
| OrderFail (status : Z) (error : OrderError).

(** [GET /api/orders/:id]. *)
Definition get_order (session : option Session) (orderId : Id) (db : DB)
  : OrderResponse :=
  match orders db !! orderId with
  | None => OrderFail 404 OrderNotFound
  | Some order =>
      if match o_user_id order with
         | Some uid =>
             match session with
             | Some session => negb (Nat.eqb (userId session) uid)
             | None => true
             end
         | None => false
         end
      then OrderFail 403 NoPermission
      else
        OrderOk {| od_id := orderId; od_status := o_status order;
                   od_subtotal := (inject_Z (o_subtotal order) / 100)%Q;
                   od_discount := (inject_Z (o_discount order) / 100)%Q;
                   od_pointsUsed := o_points_used order;
                   od_pointsEarned := o_points_earned order;
                   od_total := (inject_Z (o_total order) / 100)%Q;
                   od_items := o_items_json order |}
  end.

(** * Properties *)

(** ** Floors of quotients, in integer arithmetic *)

Lemma Qfloor_div (a b : Z) : Qfloor (inject_Z a / inject_Z b)%Q = a / b.
Proof. symmetry. apply Zdiv_Qdiv. Qed.

Lemma Qfloor_mul_div (a b c : Z) :
  Qfloor (inject_Z a * (inject_Z b / inject_Z c))%Q = a * b / c.
Proof.
  rewrite <- Qfloor_div. apply Qfloor_comp.
  rewrite inject_Z_mult. unfold Qdiv. ring.
Qed.

Lemma Qfloor_div_mul (a b c : Z) :
  Qfloor (inject_Z a / inject_Z b * inject_Z c)%Q = a * c / b.
Proof.
  rewrite <- Qfloor_div. apply Qfloor_comp.
  rewrite inject_Z_mult. unfold Qdiv. ring.
Qed.

Lemma Qfloor_mul_frac (a : Z) (q : Q) :
  Qfloor (inject_Z a * q)%Q = a * Qnum q / Zpos (Qden q).
Proof.
  destruct q as [n d]. unfold Qfloor, Qmult, inject_Z. simpl.
  reflexivity.
Qed.

Lemma maxByPercent_eq (c : Z) : maxByPercent c = c * 20 / 100.
Proof. unfold maxByPercent. apply (Qfloor_mul_div c 20 100). Qed.

Lemma maxByBalance_eq (b : Z) : maxByBalance b = b / 20 * 100.
Proof. unfold maxByBalance. f_equal. apply (Qfloor_div b 20). Qed.

Lemma maxDiscountCents_eq (c b : Z) :
  maxDiscountCents (calculateMaxDiscount c b) = Z.min (c * 20 / 100) (b / 20 * 100).
Proof. simpl. now rewrite maxByPercent_eq, maxByBalance_eq. Qed.

Lemma maxPoints_eq (c b : Z) :
  maxPoints (calculateMaxDiscount c b)
  = maxDiscountCents (calculateMaxDiscount c b) * 20 / 100.
Proof. simpl. apply (Qfloor_div_mul _ 100 20). Qed.

Lemma calculatePointsEarned_eq (a : Z) (t : Tier.t) :
  calculatePointsEarned a t
  = a / 100 * Qnum (Tier.bonusMultiplier t) / Zpos (Qden (Tier.bonusMultiplier t)).
Proof.
  unfold calculatePointsEarned. rewrite Qfloor_mul_frac. do 2 f_equal.
  change (inject_Z EARN_PER_EURO) with 1%Q.
  rewrite <- (Qfloor_div a 100). apply Qfloor_comp.
  apply Qmult_1_r.
Qed.


(** ** Tier lookup *)

Lemma getTier_cases (b : Z) :
  getTier (Int b)
  = if (0 <=? b) && (b <=? 499) then MOON
    else if (500 <=? b) && (b <=? 1499) then ECLIPSE
    else if 1500 <=? b then NOVA
    else MOON.
Proof.
  unfold getTier, tier_matches, num_geb, num_leb. simpl.
  destruct (0 <=? b) eqn:H0, (b <=? 499) eqn:H1; simpl;
    destruct (500 <=? b) eqn:H2, (b <=? 1499) eqn:H3; simpl;
    destruct (1500 <=? b) eqn:H4; simpl; try reflexivity; lia.
Qed.

(** C7: the configured tier ranges partition the non-negative balances,
    [getTier] is the identity on the bounds of every tier (with
    [Infinity] the upper bound of NOVA), and a number that matches no
    tier, such as a negative balance, gets the first tier, MOON. *)
Theorem tier_table_partition :
  (forall b : Z, 0 <= b ->
     exists! t : Tier.t, In t TIERS /\ tier_matches (Int b) t = true) /\
  (forall b : Z, 0 <= b ->
     In (getTier (Int b)) TIERS /\ tier_matches (Int b) (getTier (Int b)) = true) /\
  (forall t : Tier.t, In t TIERS ->
     getTier (Int (Tier.min t)) = t /\ getTier (Tier.max t) = t) /\
  (forall p : num, (forall t : Tier.t, In t TIERS -> tier_matches p t = false) ->
     getTier p = MOON) /\
  (forall b : Z, b < 0 ->
     (forall t : Tier.t, In t TIERS -> tier_matches (Int b) t = false) /\
     getTier (Int b) = MOON).
Proof.
  split; [| split; [| split; [| split]]].
  - intros b Hb.
    assert (Hc : b <= 499 \/ 500 <= b <= 1499 \/ 1500 <= b) by lia.
    destruct Hc as [Hc | [Hc | Hc]];
      [exists MOON | exists ECLIPSE | exists NOVA];
      (split;
       [ split; [simpl; tauto | unfold tier_matches, num_geb, num_leb; simpl; lia]
       | intros t' [Hin Hm]; simpl in Hin;
         destruct Hin as [<- | [<- | [<- | []]]]; try reflexivity;
         unfold tier_matches, num_geb, num_leb in Hm; simpl in Hm; lia ]).
  - intros b Hb. rewrite getTier_cases. unfold tier_matches, num_geb, num_leb.
    destruct (0 <=? b) eqn:H0, (b <=? 499) eqn:H1; simpl; try lia;
      destruct (500 <=? b) eqn:H2, (b <=? 1499) eqn:H3; simpl; try lia;
      destruct (1500 <=? b) eqn:H4; simpl; try lia; (split; [tauto | lia]).
  - intros t Ht. simpl in Ht.
    destruct Ht as [<- | [<- | [<- | []]]]; split; reflexivity.
  - intros p Hp. unfold getTier. simpl.
    rewrite (Hp MOON), (Hp ECLIPSE), (Hp NOVA) by (simpl; tauto). reflexivity.
  - intros b Hb. split.
    + intros t Ht. simpl in Ht.
      destruct Ht as [<- | [<- | [<- | []]]];
        unfold tier_matches, num_geb, num_leb; simpl; lia.
    + rewrite getTier_cases.
      destruct (0 <=? b) eqn:H0; [lia |]. simpl.
      destruct (500 <=? b) eqn:H2; [lia |]. simpl.
      destruct (1500 <=? b) eqn:H4; [lia | reflexivity].
Qed.

Lemma tier_table_partition_witness :
  (exists! t : Tier.t, In t TIERS /\ tier_matches (Int 510) t = true) /\
  (getTier (Int (Tier.min ECLIPSE)) = ECLIPSE /\ getTier (Tier.max NOVA) = NOVA) /\
  getTier (Int (-7)) = MOON.
Proof.
  destruct tier_table_partition as (H1 & _ & H3 & _ & H5).
  split; [apply H1; lia |].
  split.
  - split; [apply (H3 ECLIPSE) | apply (H3 NOVA)]; simpl; tauto.
  - apply (H5 (-7)). lia.
Defined.

(** ** Points earning *)




(** ** Discount calculator *)

Lemma redeemed_discount_le (p mp mdc : Z) :
  p <= mp -> mp = mdc * 20 / 100 -> p / 20 * 100 <= mdc.
Proof.
  intros Hp ->.
  pose proof (Z.mul_div_le p 20 ltac:(lia)).
  pose proof (Z.mul_div_le (mdc * 20) 100 ltac:(lia)).
  lia.
Qed.

(** What [calculate-discount] answers once the session resolves to a
    user and the cart reaches the minimum order. *)
Lemma calculate_discount_ok (db : DB) (session : Session) (user : User)
    (cart : Z) (requested : option Z) :
  users db !! userId session = Some user ->
  MIN_ORDER_FOR_REDEMPTION * 100 <= cart ->
  let md := calculateMaxDiscount cart (u_points_balance user) in
  let points := Z.min (or_default requested (maxPoints md)) (maxPoints md) in
  calculate_discount (Some session) cart requested db
  = Ok {| pointsAvailable := u_points_balance user;
          maxPointsUsable := maxPoints md;
          body_maxDiscountCents := maxDiscountCents md;
          pointsToUse := points;
          discountCents := points / 20 * 100;
          newTotal := cart - points / 20 * 100 |}.
Proof.
  intros Hu Hc md points. unfold calculate_discount. rewrite Hu.
  destruct (cart <? MIN_ORDER_FOR_REDEMPTION * 100) eqn:E; [lia |].
  fold md. fold points. unfold POINTS_PER_EURO_DISCOUNT.
  now rewrite (Qfloor_div points 20).
Qed.

(** An answer with a body comes from a session, a user and a cart that
    reaches the minimum order. *)
Lemma calculate_discount_inv (db : DB) (session : option Session) (cart : Z)
    (requested : option Z) (body : DiscountBody) :
  calculate_discount session cart requested db = Ok body ->
  exists s user,
    session = Some s /\ users db !! userId s = Some user /\
    MIN_ORDER_FOR_REDEMPTION * 100 <= cart.
Proof.
  unfold calculate_discount. intros H.
  destruct session as [s |]; [| discriminate].
  destruct (users db !! userId s) as [user |] eqn:Hu; [| discriminate].
  destruct (cart <? MIN_ORDER_FOR_REDEMPTION * 100) eqn:E; [discriminate |].
  exists s, user. repeat split; [assumption | lia].
Qed.

(** C4: for a cart and a balance that are not negative and any requested
    points, the discount is at most the percentage cap and at most the
    cart, so the new total is not negative. *)
Theorem discount_within_caps (db : DB) (session : Session) (user : User)
    (cart : Z) (requested : option Z) (body : DiscountBody) :
  0 <= cart ->
  users db !! userId session = Some user ->
  0 <= u_points_balance user ->
  calculate_discount (Some session) cart requested db = Ok body ->
  discountCents body <= cart * MAX_DISCOUNT_PERCENT / 100 /\
  discountCents body <= cart /\
  newTotal body = cart - discountCents body /\
  0 <= newTotal body.
Proof.
  intros Hc Hu Hb H.
  destruct (calculate_discount_inv _ _ _ _ _ H) as (s & u' & Hs & _ & Hmin).
  pose proof (calculate_discount_ok db session user cart requested Hu Hmin) as E.
  cbv zeta in E.
  set (md := calculateMaxDiscount cart (u_points_balance user)) in *.
  set (points := Z.min (or_default requested (maxPoints md)) (maxPoints md)) in *.
  assert (body = {| pointsAvailable := u_points_balance user;
                    maxPointsUsable := maxPoints md;
                    body_maxDiscountCents := maxDiscountCents md;
                    pointsToUse := points;
                    discountCents := points / 20 * 100;
                    newTotal := cart - points / 20 * 100 |}) as -> by congruence.
  cbn [discountCents newTotal].
  assert (Hd : points / 20 * 100 <= maxDiscountCents md).
  { apply (redeemed_discount_le points (maxPoints md)); [lia |].
    apply maxPoints_eq. }
  assert (Hm : maxDiscountCents md <= cart * 20 / 100).
  { unfold md. rewrite maxDiscountCents_eq. lia. }
  assert (Hp : cart * 20 / 100 <= cart).
  { pose proof (Z.mul_div_le (cart * 20) 100 ltac:(lia)). lia. }
  change (cart * MAX_DISCOUNT_PERCENT / 100) with (cart * 20 / 100).
  lia.
Qed.

Lemma discount_within_caps_witness :
  let body := {| pointsAvailable := 1000; maxPointsUsable := 400;
                 body_maxDiscountCents := 2000; pointsToUse := 399;
                 discountCents := 1900; newTotal := 8100 |} in
  calculate_discount (Some alice) 10000 (Some 399) db_1000 = Ok body /\
  discountCents body <= 10000 * MAX_DISCOUNT_PERCENT / 100 /\
  discountCents body <= 10000 /\
  0 <= newTotal body.
Proof.
  intros body.
  assert (Hu : users db_1000 !! userId alice
               = Some {| u_email := "alice@lunara.de"; u_name := Some "Alice";
                         u_points_balance := 1000; u_tier := "ECLIPSE" |})
    by (vm_compute; reflexivity).
  assert (Hr : calculate_discount (Some alice) 10000 (Some 399) db_1000 = Ok body)
    by (vm_compute; reflexivity).
  split; [exact Hr |].
  destruct (discount_within_caps db_1000 alice _ 10000 (Some 399) body
              ltac:(lia) Hu ltac:(simpl; lia) Hr) as (H1 & H2 & _ & H4).
  exact (conj H1 (conj H2 H4)).
Defined.

(** C5: from the minimum order on, the answer of [calculate-discount] is
    given by the integer formulas below, where "requested or maximum"
    takes the maximum for a missing and for a zero request; a cart of
    10000 with a balance of 1000 and no request gives 2000, 5000, 2000,
    400 and 2000. *)
Theorem discount_formulas (db : DB) (session : Session) (user : User)
    (cart : Z) (requested : option Z) :
  users db !! userId session = Some user ->
  MIN_ORDER_FOR_REDEMPTION * 100 <= cart ->
  (exists body : DiscountBody,
     calculate_discount (Some session) cart requested db = Ok body /\
     maxByPercent cart = cart * 20 / 100 /\
     maxByBalance (u_points_balance user) = u_points_balance user / 20 * 100 /\
     body_maxDiscountCents body
     = Z.min (maxByPercent cart) (maxByBalance (u_points_balance user)) /\
     maxPointsUsable body = body_maxDiscountCents body * 20 / 100 /\
     pointsToUse body
     = Z.min (match requested with
              | Some 0 | None => maxPointsUsable body
              | Some r => r
              end) (maxPointsUsable body) /\
     discountCents body = pointsToUse body / 20 * 100) /\
  (u_points_balance user = 1000 ->
   maxByPercent 10000 = 2000 /\
   maxByBalance 1000 = 5000 /\
   calculate_discount (Some session) 10000 None db
   = Ok {| pointsAvailable := 1000; maxPointsUsable := 400;
           body_maxDiscountCents := 2000; pointsToUse := 400;
           discountCents := 2000; newTotal := 8000 |}).
Proof.
  intros Hu Hmin. split.
  - eexists. split; [apply (calculate_discount_ok db session user); assumption |].
    cbn [body_maxDiscountCents maxPointsUsable pointsToUse discountCents].
    split; [apply maxByPercent_eq |].
    split; [apply maxByBalance_eq |].
    split; [reflexivity |].
    split; [apply maxPoints_eq |].
    split; [| reflexivity].
    f_equal. unfold or_default. destruct requested as [[| r | r] |]; reflexivity.
  - intros Hb. split; [reflexivity |]. split; [reflexivity |].
    rewrite (calculate_discount_ok db session user 10000 None Hu)
      by (unfold MIN_ORDER_FOR_REDEMPTION; lia).
    rewrite Hb. reflexivity.
Qed.

Lemma discount_formulas_witness :
  calculate_discount (Some alice) 10000 None db_1000
  = Ok {| pointsAvailable := 1000; maxPointsUsable := 400;
          body_maxDiscountCents := 2000; pointsToUse := 400;
          discountCents := 2000; newTotal := 8000 |}.
Proof.
  assert (Hu : users db_1000 !! userId alice
               = Some {| u_email := "alice@lunara.de"; u_name := Some "Alice";
                         u_points_balance := 1000; u_tier := "ECLIPSE" |})
    by (vm_compute; reflexivity).
  destruct (discount_formulas db_1000 alice _ 10000 None Hu
              ltac:(unfold MIN_ORDER_FOR_REDEMPTION; lia))
    as [_ H].
  apply H. reflexivity.
Defined.

(** C9: a requested [pointsToUse] of 0 is answered like a missing one,
    with the maximum usable points. *)
Theorem zero_request_is_maximum (db : DB) (session : option Session) (cart : Z) :
  calculate_discount session cart (Some 0) db
  = calculate_discount session cart None db /\
  forall body : DiscountBody,
    calculate_discount session cart (Some 0) db = Ok body ->
    pointsToUse body = maxPointsUsable body.
Proof.
  split; [reflexivity |].
  unfold calculate_discount. intros body H.
  destruct session as [s |]; [| discriminate].
  destruct (users db !! userId s) as [user |]; [| discriminate].
  destruct (cart <? MIN_ORDER_FOR_REDEMPTION * 100); [discriminate |].
  assert (Hb : pointsToUse body
               = Z.min (maxPoints (calculateMaxDiscount cart (u_points_balance user)))
                       (maxPoints (calculateMaxDiscount cart (u_points_balance user))))
    by (inversion H; reflexivity).
  assert (Hm : maxPointsUsable body
               = maxPoints (calculateMaxDiscount cart (u_points_balance user)))
    by (inversion H; reflexivity).
  rewrite Hb, Hm. apply Z.min_id.
Qed.

Lemma zero_request_is_maximum_witness :
  exists body : DiscountBody,
    calculate_discount (Some alice) 10000 (Some 0) db_1000 = Ok body /\
    pointsToUse body = 400 /\ maxPointsUsable body = 400.
Proof.
  eexists. split; [vm_compute; reflexivity |].
  split; [| reflexivity].
  apply (proj2 (zero_request_is_maximum db_1000 (Some alice) 10000)
           {| pointsAvailable := 1000; maxPointsUsable := 400;
              body_maxDiscountCents := 2000; pointsToUse := 400;
              discountCents := 2000; newTotal := 8000 |}).
  vm_compute. reflexivity.
Defined.

(** ** Reasoning about computations *)

Section Respects.
Variable R : DB -> DB -> Prop.
Hypothesis R_refl : forall db, R db db.
Hypothesis R_trans : forall a b c, R a b -> R b c -> R a c.

Lemma respects_ret {A : Type} (a : A) : respects R (ret a).
Proof. intros db. apply R_refl. Qed.

Lemma respects_raise {A : Type} : respects R (@raise A).
Proof. intros db. apply R_refl. Qed.

Lemma respects_bind {A B : Type} (m : M A) (k : A -> M B) :
  respects R m -> (forall a, respects R (k a)) -> respects R (bind m k).
Proof.
  intros Hm Hk db. unfold bind. specialize (Hm db).
  destruct (m db) as [db' [a |]]; simpl in *.
  - eapply R_trans; [exact Hm | apply Hk].
  - exact Hm.
Qed.

Lemma respects_when (c : bool) (m : M unit) :
  respects R m -> respects R (when c m).
Proof. intros Hm. destruct c; [exact Hm | apply respects_ret]. Qed.

Lemma respects_try_catch {A : Type} (m : M A) (h : A) (db : DB) :
  respects R m -> R db (fst (try_catch m h db)).
Proof.
  intros Hm. unfold try_catch. specialize (Hm db).
  destruct (m db) as [db' [a |]]; exact Hm.
Qed.

Lemma respects_select_user id : respects R (select_user id).
Proof. intros db. apply R_refl. Qed.

Lemma respects_select_order id : respects R (select_order id).
Proof. intros db. apply R_refl. Qed.

Lemma respects_select_user_id_by_email e : respects R (select_user_id_by_email e).
Proof. intros db. apply R_refl. Qed.

Lemma respects_select_subscriber e : respects R (select_subscriber e).
Proof. intros db. apply R_refl. Qed.
End Respects.

(** ** The ledger is extended by every statement but one *)

Lemma ledger_extends_refl (db : DB) : ledger_extends db db.
Proof. exists []. now rewrite app_nil_r. Qed.

Lemma ledger_extends_trans (a b c : DB) :
  ledger_extends a b -> ledger_extends b c -> ledger_extends a c.
Proof.
  intros [n1 H1] [n2 H2]. exists (n1 ++ n2)%list.
  now rewrite H2, H1, <- app_assoc.
Qed.

Lemma ledger_extends_same (db db' : DB) :
  points_transactions db' = points_transactions db -> ledger_extends db db'.
Proof. intros H. exists []. now rewrite app_nil_r. Qed.

Lemma extends_generateId : respects ledger_extends generateId.
Proof. intros db. now apply ledger_extends_same. Qed.

Lemma extends_insert_user id u : respects ledger_extends (insert_user id u).
Proof.
  intros db. unfold insert_user.
  destruct (users db !! id); [apply ledger_extends_refl |].
  destruct (select_user_id_by_email (u_email u) db) as [? [[?|]|]];
    now apply ledger_extends_same.
Qed.

Lemma extends_update_user id f : respects ledger_extends (update_user id f).
Proof. intros db. now apply ledger_extends_same. Qed.

Lemma extends_insert_points_transaction r :
  respects ledger_extends (insert_points_transaction r).
Proof.
  intros db. unfold insert_points_transaction.
  destruct (existsb _ _); [apply ledger_extends_refl |].
  destruct (users db !! pt_user_id r); [| apply ledger_extends_refl].
  now exists [r].
Qed.

Lemma extends_insert_order id o : respects ledger_extends (insert_order id o).
Proof.
  intros db. unfold insert_order.
  destruct (orders db !! id); [apply ledger_extends_refl |].
  destruct (o_user_id o) as [uid |]; [| now apply ledger_extends_same].
  destruct (users db !! uid); now apply ledger_extends_same.
Qed.

Lemma extends_update_order id f : respects ledger_extends (update_order id f).
Proof. intros db. now apply ledger_extends_same. Qed.

Lemma extends_insert_subscriber id e : respects ledger_extends (insert_subscriber id e).
Proof.
  intros db. unfold insert_subscriber.
  destruct (existsb _ _); now apply ledger_extends_same.
Qed.

Create HintDb extends.
#[local] Hint Resolve extends_generateId extends_insert_user extends_update_user
  extends_insert_points_transaction extends_insert_order extends_update_order
  extends_insert_subscriber : extends.

(** Splits a computation along its binds and branches.  [refl] and
    [trans] are the proofs that the relation is a preorder, [stmt] closes
    single statements and [block] splits the blocks of statements that
    only together respect the relation. *)
Ltac respects_steps refl trans stmt block :=
  repeat first
    [ exact refl
    | exact trans
    | solve [stmt]
    | apply respects_ret
    | apply respects_raise
    | apply respects_select_user
    | apply respects_select_order
    | apply respects_select_user_id_by_email
    | apply respects_select_subscriber
    | apply respects_when
    | progress block
    | apply respects_bind
    | match goal with
      | |- forall _, respects _ _ => intros ?
      | |- respects _ (if ?c then _ else _) => destruct c
      | |- respects _ (match ?x with _ => _ end) => destruct x
      | |- respects _ (let _ := _ in _) => cbv zeta
      end ].

Ltac extends_steps :=
  respects_steps ledger_extends_refl ledger_extends_trans
    ltac:(auto with extends) ltac:(idtac).

Lemma extends_register e p n db : ledger_extends db (fst (register e p n db)).
Proof.
  unfold register. apply respects_try_catch.
  extends_steps.
Qed.

Lemma extends_update_profile s n db : ledger_extends db (fst (update_profile s n db)).
Proof.
  unfold update_profile. destruct s; [| apply ledger_extends_refl].
  apply respects_try_catch; extends_steps.
Qed.

Lemma extends_create_session s i p c db :
  ledger_extends db (fst (create_session s i p c db)).
Proof.
  unfold create_session. apply respects_try_catch.
  extends_steps.
Qed.

Lemma extends_stripe_webhook sg ev db :
  ledger_extends db (fst (stripe_webhook sg ev db)).
Proof.
  unfold stripe_webhook. destruct (falsy sg); [apply ledger_extends_refl |].
  apply respects_try_catch; extends_steps.
Qed.

Lemma extends_newsletter_subscribe s e db :
  ledger_extends db (fst (newsletter_subscribe s e db)).
Proof.
  unfold newsletter_subscribe. apply respects_try_catch.
  extends_steps.
Qed.

(** The ledger a deletion leaves: the entries of the other users. *)
Lemma delete_account_ledger (s : Session) (db : DB) :
  points_transactions (fst (delete_account (Some s) db))
  = List.filter (fun r => negb (Nat.eqb (pt_user_id r) (userId s)))
      (points_transactions db).
Proof.
  unfold delete_account, try_catch, bind, delete_points_transactions,
    delete_orders, delete_user. simpl.
  destruct (_ || _); reflexivity.
Qed.

(** C2, as amended: every request but the deletion of an account only
    appends to the ledger, so the entries recorded before stay recorded,
    unchanged; the deletion of an account removes the entries of that
    account's user and keeps those of every other user. *)
Theorem ledger_append_only_but_for_deletion (r : Request) (db : DB) :
  match r with
  | DeleteAccount (Some session) =>
      points_transactions (handle r db)
      = List.filter (fun e => negb (Nat.eqb (pt_user_id e) (userId session)))
          (points_transactions db) /\
      (forall e : PointsTransaction,
         In e (points_transactions db) -> pt_user_id e <> userId session ->
         In e (points_transactions (handle r db)))
  | _ => ledger_extends db (handle r db) /\ keeps_ledger_entries r db
  end.
Proof.
  assert (Hk : forall r, ledger_extends db (handle r db) -> keeps_ledger_entries r db).
  { intros r' [new Hn] e He. rewrite Hn. apply in_or_app. now left. }
  destruct r as [e p n | s n | [s |] | s i p c | sg ev | s e]; unfold handle.
  - split; [| apply Hk]; apply extends_register.
  - split; [| apply Hk]; apply extends_update_profile.
  - rewrite delete_account_ledger. split; [reflexivity |].
    intros e He Hne. apply filter_In. split; [exact He |].
    apply negb_true_iff, Nat.eqb_neq, Hne.
  - split; [| apply Hk]; apply ledger_extends_refl.
  - split; [| apply Hk]; apply extends_create_session.
  - split; [| apply Hk]; apply extends_stripe_webhook.
  - split; [| apply Hk]; apply extends_newsletter_subscribe.
Qed.

Lemma ledger_append_only_but_for_deletion_witness :
  (forall e : PointsTransaction,
     In e (points_transactions db_1000) -> pt_user_id e <> 7%nat ->
     In e (points_transactions
             (handle (DeleteAccount (Some {| userId := 7%nat; email := "eve@lunara.de" |}))
                db_1000))) /\
  keeps_ledger_entries (NewsletterSubscribe (Some alice) (Some "alice@lunara.de")) db_1000.
Proof.
  split.
  - apply (ledger_append_only_but_for_deletion
             (DeleteAccount (Some {| userId := 7%nat; email := "eve@lunara.de" |}))
             db_1000).
  - apply (ledger_append_only_but_for_deletion
             (NewsletterSubscribe (Some alice) (Some "alice@lunara.de")) db_1000).
Defined.

(** C2 as stated fails: deleting the account removes the signup entry
    that the registration recorded. *)
Lemma ledger_entry_deleted :
  ~ keeps_ledger_entries (DeleteAccount (Some alice)) db_registered.
Proof.
  intros H.
  specialize (H {| pt_id := 1%nat; pt_user_id := 0%nat; pt_amount := 50;
                   pt_type := EARN; pt_source := Some SIGNUP;
                   pt_reference_id := None |}).
  vm_compute in H. apply H. left. reflexivity.
Qed.

(** ** Sums over the ledger *)

Lemma balanceFor_app (uid : Id) (l1 l2 : list PointsTransaction) :
  balanceFor uid (l1 ++ l2) = balanceFor uid l1 + balanceFor uid l2.
Proof. induction l1 as [| r l1 IH]; simpl; [reflexivity | rewrite IH; lia]. Qed.

Lemma balanceFor_snoc (uid : Id) (l : list PointsTransaction) (r : PointsTransaction) :
  balanceFor uid (l ++ [r])
  = balanceFor uid l + (if Nat.eqb (pt_user_id r) uid then pt_amount r else 0).
Proof. rewrite balanceFor_app. simpl. lia. Qed.

Lemma balanceFor_filter_other (uid uid' : Id) (l : list PointsTransaction) :
  uid' <> uid ->
  balanceFor uid' (List.filter (fun r => negb (Nat.eqb (pt_user_id r) uid)) l)
  = balanceFor uid' l.
Proof.
  intros Hne. induction l as [| r l IH]; simpl; [reflexivity |].
  destruct (Nat.eqb_spec (pt_user_id r) uid) as [E | E]; simpl.
  - destruct (Nat.eqb_spec (pt_user_id r) uid'); [congruence | lia].
  - now rewrite IH.
Qed.

Lemma balanceFor_unreferenced (uid : Id) (l : list PointsTransaction) :
  Forall (fun r => pt_user_id r <> uid) l -> balanceFor uid l = 0.
Proof.
  induction 1 as [| r l Hr _ IH]; simpl; [reflexivity |].
  destruct (Nat.eqb_spec (pt_user_id r) uid); [contradiction | lia].
Qed.

Lemma existsb_filter_negb {A : Type} (f : A -> bool) (l : list A) :
  existsb f (List.filter (fun x => negb (f x)) l) = false.
Proof.
  induction l as [| x l IH]; simpl; [reflexivity |].
  destruct (f x) eqn:E; simpl; [exact IH | now rewrite E].
Qed.

Lemma existsb_fresh_id (n : Id) (l : list PointsTransaction) :
  Forall (fun r => (pt_id r < n)%nat) l ->
  existsb (fun r => Nat.eqb (pt_id r) n) l = false.
Proof.
  induction 1 as [| r l Hr _ IH]; simpl; [reflexivity |].
  rewrite IH. destruct (Nat.eqb_spec (pt_id r) n); [lia | reflexivity].
Qed.

(** ** Databases that stay consistent *)

(** A step that changes no balance, no ledger entry and uses only
    generated identifiers keeps the database consistent. *)
Lemma consistent_inert (db db' : DB) :
  consistent db ->
  (forall k, u_points_balance <$> users db' !! k = u_points_balance <$> users db !! k) ->
  points_transactions db' = points_transactions db ->
  (forall k, is_Some (orders db' !! k) ->
             is_Some (orders db !! k) \/ (k < next_id db')%nat) ->
  (next_id db <= next_id db')%nat ->
  consistent db'.
Proof.
  intros (Hsum & Hfk & Htx & Hus & Hos) Hu Hl Ho Hn.
  assert (Hdom : forall k, is_Some (users db' !! k) <-> is_Some (users db !! k)).
  { intros k. specialize (Hu k).
    destruct (users db' !! k), (users db !! k); simpl in Hu;
      try discriminate; split; intros [? ?]; try discriminate; eauto. }
  split; [| split; [| split; [| split]]].
  - intros uid u Hk. rewrite Hl. specialize (Hu uid). rewrite Hk in Hu.
    destruct (users db !! uid) as [u0 |] eqn:E; [| discriminate].
    simpl in Hu. injection Hu as ->. now apply Hsum.
  - unfold ledger_references_users. rewrite Hl.
    eapply Forall_impl; [exact Hfk |]. intros r Hr. now apply Hdom.
  - rewrite Hl. eapply Forall_impl; [exact Htx |]. simpl. intros r Hr. lia.
  - intros k Hk. apply Hdom, Hus in Hk. lia.
  - intros k Hk. destruct (Ho k Hk) as [H | H]; [apply Hos in H; lia | exact H].
Qed.

(** Crediting [n] points to an existing user together with the ledger
    entry for them keeps the database consistent. *)
Lemma consistent_credit (db db' : DB) (r : PointsTransaction) :
  consistent db ->
  is_Some (users db !! pt_user_id r) ->
  users db' = alter (add_points (pt_amount r)) (pt_user_id r) (users db) ->
  points_transactions db' = (points_transactions db ++ [r])%list ->
  orders db' = orders db ->
  (pt_id r < next_id db')%nat ->
  (next_id db <= next_id db')%nat ->
  consistent db'.
Proof.
  intros (Hsum & Hfk & Htx & Hus & Hos) Hr Hu Hl Ho Hid Hn.
  assert (Hdom : forall k, is_Some (users db' !! k) <-> is_Some (users db !! k)).
  { intros k. rewrite Hu. rewrite lookup_alter.
    case_decide; [subst k; rewrite fmap_is_Some |]; reflexivity. }
  split; [| split; [| split; [| split]]].
  - intros uid u Hk. rewrite Hl, balanceFor_snoc.
    rewrite Hu, lookup_alter in Hk.
    destruct (Nat.eqb_spec (pt_user_id r) uid) as [<- | E].
    + rewrite decide_True in Hk by reflexivity.
      destruct (users db !! pt_user_id r) as [u0 |] eqn:E0; [| discriminate].
      simpl in Hk. injection Hk as <-. simpl. rewrite (Hsum _ u0 E0). reflexivity.
    + rewrite decide_False in Hk by exact E.
      rewrite (Hsum uid u Hk). lia.
  - unfold ledger_references_users. rewrite Hl. apply Forall_app. split.
    + eapply Forall_impl; [exact Hfk |]. intros r' Hr'. now apply Hdom.
    + constructor; [now apply Hdom | constructor].
  - rewrite Hl. apply Forall_app. split.
    + eapply Forall_impl; [exact Htx |]. simpl. intros r' Hr'. lia.
    + constructor; [exact Hid | constructor].
  - intros k Hk. apply Hdom, Hus in Hk. lia.
  - intros k Hk. rewrite Ho in Hk. apply Hos in Hk. lia.
Qed.

Lemma keeps_consistent_refl (db : DB) : keeps_consistent db db.
Proof. intros H. exact H. Qed.

Lemma keeps_consistent_trans (a b c : DB) :
  keeps_consistent a b -> keeps_consistent b c -> keeps_consistent a c.
Proof. unfold keeps_consistent. auto. Qed.

Lemma keeps_generateId : respects keeps_consistent generateId.
Proof.
  intros db Hc. apply (consistent_inert db); simpl; auto.
Qed.

Lemma lookup_alter_balance (f : User -> User) (id k : Id) (us : gmap nat User) :
  (forall u, u_points_balance (f u) = u_points_balance u) ->
  u_points_balance <$> alter f id us !! k = u_points_balance <$> us !! k.
Proof.
  intros Hf. rewrite lookup_alter. case_decide; [subst k |]; [| reflexivity].
  destruct (us !! id); simpl; [now rewrite Hf | reflexivity].
Qed.

Lemma keeps_update_user (id : Id) (f : User -> User) :
  (forall u, u_points_balance (f u) = u_points_balance u) ->
  respects keeps_consistent (update_user id f).
Proof.
  intros Hf db Hc. apply (consistent_inert db); simpl; auto.
  intros k. now apply lookup_alter_balance.
Qed.

Lemma keeps_update_tier (id : Id) (t : string) :
  respects keeps_consistent (update_user id (with_tier t)).
Proof. now apply keeps_update_user. Qed.

Lemma keeps_update_name (id : Id) (n : option string) :
  respects keeps_consistent (update_user id (with_name n)).
Proof. now apply keeps_update_user. Qed.

Lemma keeps_update_order (id : Id) (f : Order -> Order) :
  respects keeps_consistent (update_order id f).
Proof.
  intros db Hc. apply (consistent_inert db); simpl; auto.
  intros k Hk. left. rewrite lookup_alter in Hk.
  case_decide; [subst k; now apply fmap_is_Some in Hk | exact Hk].
Qed.

Lemma keeps_insert_subscriber (id : Id) (e : string) :
  respects keeps_consistent (insert_subscriber id e).
Proof.
  intros db Hc. unfold insert_subscriber.
  destruct (existsb _ _); simpl; [exact Hc |].
  apply (consistent_inert db); simpl; auto.
Qed.

(** An order inserted under a newly generated identifier. *)
Lemma keeps_new_order {B : Type} (o : Order) (k : Id -> M B) :
  (forall id, respects keeps_consistent (k id)) ->
  respects keeps_consistent (let* id := generateId in insert_order id o ;; k id).
Proof.
  intros Hk db Hc. unfold bind at 1. unfold generateId.
  set (db1 := set_next_id (S (next_id db)) db).
  assert (Hc1 : consistent db1) by (now apply keeps_generateId).
  unfold bind. unfold insert_order.
  assert (Hins : consistent (set_orders (insert (next_id db) o) db1)).
  { apply (consistent_inert db1); simpl; auto.
    intros k' Hk'. rewrite lookup_insert in Hk'.
    case_decide; [subst k'; right; lia | now left]. }
  destruct (orders db1 !! next_id db); [exact Hc1 |].
  destruct (o_user_id o) as [uid |].
  - destruct (users db1 !! uid); [| exact Hc1]. now apply Hk.
  - now apply Hk.
Qed.

(** The state after [UPDATE users SET points_balance = points_balance + n]
    and the [INSERT INTO points_transactions] that records it, when the
    user exists. *)
Lemma credit_consistent (db : DB) (r : PointsTransaction) :
  consistent db ->
  pt_id r = next_id db ->
  is_Some (users db !! pt_user_id r) ->
  consistent
    (set_points_transactions (fun l => (l ++ [r])%list)
       (set_next_id (S (next_id db))
          (set_users (alter (add_points (pt_amount r)) (pt_user_id r)) db))).
Proof.
  intros Hc Hid Hu. apply (consistent_credit db _ r); simpl; auto; lia.
Qed.

(** The same two statements when there is no such user: the update
    changes nothing and the insert raises. *)
Lemma credit_missing_consistent (db : DB) (uid : Id) (f : User -> User) :
  consistent db ->
  users db !! uid = None ->
  consistent (set_next_id (S (next_id db)) (set_users (alter f uid) db)).
Proof.
  intros Hc Hu. apply (consistent_inert db); simpl; auto.
  intros k. rewrite lookup_alter. case_decide; [subst k |]; [| reflexivity].
  now rewrite Hu.
Qed.

(** The two statements, the entry's identifier generated in between,
    followed by [k]. *)
Lemma keeps_credit_then {B : Type} (uid : Id) (n : Z) (ty : TxType)
    (src : option TxSource) (ref : option Id) (k : M B) :
  respects keeps_consistent k ->
  respects keeps_consistent
    (update_user uid (add_points n) ;;
     let* txId := generateId in
     insert_points_transaction
       {| pt_id := txId; pt_user_id := uid; pt_amount := n; pt_type := ty;
          pt_source := src; pt_reference_id := ref |} ;;
     k).
Proof.
  intros Hk db Hc.
  unfold bind, update_user, generateId, insert_points_transaction.
  cbn [fst snd next_id set_users set_next_id points_transactions users
       pt_id pt_user_id].
  rewrite existsb_fresh_id by apply Hc.
  rewrite lookup_alter, decide_True by reflexivity.
  destruct (users db !! uid) as [u |] eqn:Hu; cbn [fmap option_fmap option_map].
  - apply Hk.
    apply (credit_consistent db
             {| pt_id := next_id db; pt_user_id := uid; pt_amount := n;
                pt_type := ty; pt_source := src; pt_reference_id := ref |});
      simpl; eauto.
  - now apply credit_missing_consistent.
Qed.

Lemma keeps_credit (uid : Id) (n : Z) (ty : TxType)
    (src : option TxSource) (ref : option Id) :
  respects keeps_consistent
    (update_user uid (add_points n) ;;
     let* txId := generateId in
     insert_points_transaction
       {| pt_id := txId; pt_user_id := uid; pt_amount := n; pt_type := ty;
          pt_source := src; pt_reference_id := ref |}).
Proof.
  intros db Hc.
  pose proof (keeps_credit_then uid n ty src ref (ret tt)
                (respects_ret _ keeps_consistent_refl tt) db Hc) as H.
  unfold bind in *. 
  destruct (update_user uid (add_points n) db) as [db1 [[] |]]; [| exact H].
  destruct (generateId db1) as [db2 [txId |]]; [| exact H].
  destruct (insert_points_transaction _ db2) as [db3 [[] |]]; exact H.
Qed.

(** Registration: the new user and the signup entry. *)
Lemma signup_consistent (db db' : DB) (u : User) (r : PointsTransaction) :
  consistent db ->
  users db' = <[next_id db := u]> (users db) ->
  points_transactions db' = (points_transactions db ++ [r])%list ->
  orders db' = orders db ->
  next_id db' = S (S (next_id db)) ->
  pt_user_id r = next_id db ->
  pt_id r = S (next_id db) ->
  pt_amount r = u_points_balance u ->
  consistent db'.
Proof.
  intros (Hsum & Hfk & Htx & Hus & Hos) Hu Hl Ho Hn Hru Hri Hra.
  assert (Hnew : users db !! next_id db = None).
  { destruct (users db !! next_id db) eqn:E; [| reflexivity].
    assert (next_id db < next_id db)%nat by (apply Hus; eauto). lia. }
  assert (Hnone : balanceFor (next_id db) (points_transactions db) = 0).
  { apply balanceFor_unreferenced.
    eapply Forall_impl; [exact Hfk |]. intros r' [u' Hr'] E.
    rewrite E, Hnew in Hr'. discriminate. }
  split; [| split; [| split; [| split]]].
  - intros uid u0 Hk. rewrite Hl, balanceFor_snoc, Hru.
    rewrite Hu, lookup_insert in Hk.
    destruct (Nat.eqb_spec (next_id db) uid) as [<- | E].
    + rewrite decide_True in Hk by reflexivity. injection Hk as <-.
      rewrite Hnone, Hra. lia.
    + rewrite decide_False in Hk by exact E. rewrite (Hsum uid u0 Hk). lia.
  - unfold ledger_references_users. rewrite Hl, Hu. apply Forall_app. split.
    + eapply Forall_impl; [exact Hfk |]. intros r' [u' Hr'].
      rewrite lookup_insert. case_decide; eauto.
    + constructor; [| constructor]. rewrite Hru, lookup_insert_eq. eauto.
  - rewrite Hl, Hn. apply Forall_app. split.
    + eapply Forall_impl; [exact Htx |]. simpl. intros r' Hr'. lia.
    + constructor; [lia | constructor].
  - intros k Hk. rewrite Hu, lookup_insert in Hk. rewrite Hn.
    case_decide; [lia |]. apply Hus in Hk. lia.
  - intros k Hk. rewrite Ho in Hk. apply Hos in Hk. lia.
Qed.

Lemma keeps_register e p n db : keeps_consistent db (fst (register e p n db)).
Proof.
  intros Hc. unfold register, try_catch.
  destruct (falsy e || falsy p); [exact Hc |].
  destruct (_ <? 8)%nat; [exact Hc |].
  unfold bind at 1. unfold select_user_id_by_email at 1.
  destruct (fst <$> find _ _) as [existing |] eqn:Hex; [exact Hc |].
  unfold bind, generateId, insert_user, insert_points_transaction.
  unfold select_user_id_by_email.
  cbn [fst snd next_id set_users set_next_id points_transactions users
       pt_id pt_user_id u_email].
  rewrite Hex.
  destruct (users db !! next_id db) eqn:Hnew.
  { now apply keeps_generateId. }
  rewrite existsb_fresh_id
    by (eapply Forall_impl; [apply Hc |]; simpl; intros; lia).
  simpl. rewrite lookup_insert_eq. simpl.
  eapply (signup_consistent db); [exact Hc | reflexivity ..].
Qed.

(** Deleting an account: the three [DELETE]s. *)
Lemma existsb_order_of_filter (uid : Id) (os : gmap nat Order) :
  existsb (fun kv : nat * Order => order_of uid (snd kv))
    (map_to_list (filter (fun kv : nat * Order => order_of uid (snd kv) = false) os))
  = false.
Proof.
  apply not_true_is_false. intros H.
  apply existsb_exists in H. destruct H as ([k o] & Hin & Ho).
  apply list_elem_of_In, elem_of_map_to_list, map_lookup_filter_Some in Hin.
  destruct Hin as [_ Hf]. simpl in *. congruence.
Qed.

Lemma delete_account_result (s : Session) (db : DB) :
  delete_account (Some s) db
  = (set_users (delete (userId s))
       (set_orders (filter (fun kv : nat * Order => order_of (userId s) (snd kv) = false))
          (set_points_transactions
             (List.filter (fun r => negb (Nat.eqb (pt_user_id r) (userId s)))) db)),
     Ok tt).
Proof.
  unfold delete_account, try_catch, bind, delete_points_transactions,
    delete_orders, delete_user.
  cbn [fst snd set_points_transactions set_orders points_transactions orders].
  rewrite (existsb_filter_negb (fun r => Nat.eqb (pt_user_id r) (userId s))).
  rewrite existsb_order_of_filter. reflexivity.
Qed.

Lemma keeps_delete_account s db : keeps_consistent db (fst (delete_account s db)).
Proof.
  destruct s as [s |]; [| intros H; exact H].
  rewrite delete_account_result. cbn [fst].
  intros (Hsum & Hfk & Htx & Hus & Hos).
  split; [| split; [| split; [| split]]];
    unfold ledger_sum, ledger_references_users; simpl.
  - intros uid u Hk. apply lookup_delete_Some in Hk as [Hne Hk].
    rewrite balanceFor_filter_other by congruence. now apply Hsum.
  - apply List.Forall_forall. intros r Hr. apply filter_In in Hr as [Hr Hne].
    apply negb_true_iff, Nat.eqb_neq in Hne.
    rewrite lookup_delete_ne by congruence.
    unfold ledger_references_users in Hfk. rewrite List.Forall_forall in Hfk.
    now apply Hfk.
  - apply List.Forall_forall. intros r Hr. apply filter_In in Hr as [Hr _].
    rewrite List.Forall_forall in Htx. now apply Htx.
  - intros k [u Hk]. apply lookup_delete_Some in Hk as [_ Hk]. apply Hus. eauto.
  - intros k [o Hk]. apply map_lookup_filter_Some in Hk as [Hk _]. apply Hos. eauto.
Qed.

Create HintDb keeps.
#[local] Hint Resolve keeps_generateId keeps_update_tier keeps_update_name
  keeps_update_order keeps_insert_subscriber : keeps.

Ltac keeps_steps :=
  respects_steps keeps_consistent_refl keeps_consistent_trans
    ltac:(auto with keeps)
    ltac:(first [ apply keeps_credit_then | apply keeps_credit
                | apply keeps_new_order ]).

Lemma keeps_update_profile s n db :
  keeps_consistent db (fst (update_profile s n db)).
Proof.
  unfold update_profile. destruct s; [| apply keeps_consistent_refl].
  apply respects_try_catch; keeps_steps.
Qed.

Lemma keeps_newsletter_subscribe s e db :
  keeps_consistent db (fst (newsletter_subscribe s e db)).
Proof.
  unfold newsletter_subscribe. apply respects_try_catch.
  keeps_steps.
Qed.

Lemma keeps_stripe_webhook sg ev db :
  keeps_consistent db (fst (stripe_webhook sg ev db)).
Proof.
  unfold stripe_webhook. destruct (falsy sg); [apply keeps_consistent_refl |].
  apply respects_try_catch; keeps_steps.
Qed.

Lemma keeps_create_session s i p c db :
  keeps_consistent db (fst (create_session s i p c db)).
Proof.
  unfold create_session. apply respects_try_catch.
  keeps_steps.
Qed.

(** ** The ledger-sum invariant *)

Lemma keeps_handle (r : Request) (db : DB) : keeps_consistent db (handle r db).
Proof.
  destruct r; unfold handle.
  - apply keeps_register.
  - apply keeps_update_profile.
  - apply keeps_delete_account.
  - apply keeps_create_session.
  - apply keeps_stripe_webhook.
  - apply keeps_newsletter_subscribe.
Qed.

Lemma consistent_empty : consistent empty_db.
Proof.
  unfold consistent, ledger_sum, ledger_references_users, ids_generated, empty_db.
  cbn [users orders points_transactions next_id].
  split; [| split; [| split; [| split]]].
  - intros uid u H. rewrite lookup_empty in H. discriminate.
  - constructor.
  - constructor.
  - intros k [u H]. rewrite lookup_empty in H. discriminate.
  - intros k [o H]. rewrite lookup_empty in H. discriminate.
Qed.

Lemma run_app (rs1 rs2 : list Request) (db : DB) :
  run (rs1 ++ rs2) db = run rs2 (run rs1 db).
Proof. unfold run. apply fold_left_app. Qed.

Lemma run_consistent (rs : list Request) (db : DB) :
  consistent db -> consistent (run rs db).
Proof.
  revert db. induction rs as [| r rs IH]; intros db Hc; [exact Hc |].
  simpl. apply IH. now apply keeps_handle.
Qed.

Lemma reachable_consistent (rs : list Request) : consistent (run rs empty_db).
Proof. apply run_consistent, consistent_empty. Qed.

(** C3: after any sequence of requests, starting from the empty
    database, the cached balance of every user that exists is the sum of
    the amounts of the user's ledger entries. *)
Theorem ledger_sum_invariant (rs : list Request) (uid : Id) (u : User) :
  users (run rs empty_db) !! uid = Some u ->
  u_points_balance u = balanceFor uid (points_transactions (run rs empty_db)).
Proof. apply (reachable_consistent rs). Qed.

Lemma ledger_sum_invariant_witness :
  users db_520 !! 0%nat
  = Some {| u_email := "alice@lunara.de"; u_name := Some "Alice";
            u_points_balance := 520; u_tier := "ECLIPSE" |} /\
  520 = balanceFor 0%nat (points_transactions db_520).
Proof.
  assert (H : users (run (register_alice :: purchase 2%nat 47000) empty_db) !! 0%nat
              = Some {| u_email := "alice@lunara.de"; u_name := Some "Alice";
                        u_points_balance := 520; u_tier := "ECLIPSE" |})
    by (vm_compute; reflexivity).
  split; [exact H |].
  exact (ledger_sum_invariant (register_alice :: purchase 2%nat 47000) 0%nat _ H).
Defined.

(** ** Settlement *)

(** Reduces the projections of an updated database. *)
Ltac db_simpl :=
  cbn [default from_option id fmap option_fmap option_map
       ev_type ev_metadata orderId md_userId pointsUsed fst snd
       set_orders set_users set_next_id set_points_transactions
       orders users next_id points_transactions pt_id pt_user_id
       o_total with_status add_points u_points_balance u_tier].

Lemma stripe_webhook_settles (db : DB) (signature : option string)
    (oid uid : Id) (n : Z) (dc : option Z) (o : Order) (u : User) :
  consistent db ->
  falsy signature = false ->
  orders db !! oid = Some o ->
  users db !! uid = Some u ->
  let spent := if 0 <? n then n else 0 in
  let earned :=
    calculatePointsEarned (o_total o) (getTier (Int (u_points_balance u - spent))) in
  let newTier := getTier (Int (u_points_balance u - spent - n + earned)) in
  let spend :=
    {| pt_id := next_id db; pt_user_id := uid; pt_amount := - n; pt_type := SPEND;
       pt_source := Some ORDER; pt_reference_id := Some oid |} in
  let earn :=
    {| pt_id := if 0 <? n then S (next_id db) else next_id db;
       pt_user_id := uid; pt_amount := earned; pt_type := EARN;
       pt_source := Some ORDER; pt_reference_id := Some oid |} in
  exists db' : DB,
    stripe_webhook signature
      (Some {| ev_type := "checkout.session.completed";
               ev_metadata := Some {| orderId := Some oid; md_userId := Some uid;
                                      pointsUsed := Some n; md_discountCents := dc |} |})
      db
    = (db', Ok tt) /\
    points_transactions db'
    = (points_transactions db ++ (if 0 <? n then [spend] else []) ++ [earn])%list /\
    users db' !! uid
    = Some {| u_email := u_email u; u_name := u_name u;
              u_points_balance := u_points_balance u - spent + earned;
              u_tier := Tier.name newTier |} /\
    (forall k, k <> uid -> users db' !! k = users db !! k) /\
    orders db' !! oid = Some (with_points_earned earned (with_status paid o)).
Proof.
  intros Hc Hsig Ho Hu spent earned newTier spend earn.
  subst spent earned newTier spend earn.
  assert (Hfresh : forall m, (next_id db <= m)%nat ->
            existsb (fun r => Nat.eqb (pt_id r) m) (points_transactions db) = false).
  { intros m Hm. apply existsb_fresh_id.
    eapply Forall_impl; [apply Hc |]. simpl. intros; lia. }
  assert (Hself : forall m : nat, Nat.eqb m (S m) = false).
  { intros m. apply Nat.eqb_neq. lia. }
  unfold stripe_webhook. rewrite Hsig.
  unfold try_catch, bind, when, ret, raise, update_order, select_order, update_user,
    select_user, generateId, insert_points_transaction.
  db_simpl. rewrite String.eqb_refl.
  rewrite lookup_alter_eq, Ho. db_simpl.
  destruct (0 <? n) eqn:Hn; db_simpl.
  - rewrite Hfresh by lia.
    rewrite lookup_alter_eq, Hu. db_simpl.
    rewrite lookup_alter_eq, Hu. db_simpl.
    rewrite existsb_app, Hfresh by lia. cbn [existsb pt_id orb].
    rewrite Hself. cbn [orb].
    rewrite !lookup_alter_eq, Hu. db_simpl.
    match goal with
    | |- context [if negb ?c then _ else _] => destruct c eqn:Ht
    end; cbn [negb]; db_simpl;
      (eexists; split; [reflexivity |]); db_simpl;
      (split; [now rewrite <- app_assoc |]);
      (split; [| split;
                 [ intros k Hk; now rewrite ?lookup_alter_ne by congruence
                 | now rewrite !lookup_alter_eq, Ho ]]);
      rewrite !lookup_alter_eq, Hu; cbn [fmap option_fmap option_map];
      unfold add_points, with_tier; cbn [u_email u_name u_points_balance u_tier].
    + apply String.eqb_eq in Ht. rewrite <- Ht. reflexivity.
    + reflexivity.
  - rewrite !Z.sub_0_r. rewrite Hu. db_simpl.
    rewrite Hfresh by lia.
    rewrite !lookup_alter_eq, Hu. db_simpl.
    match goal with
    | |- context [if negb ?c then _ else _] => destruct c eqn:Ht
    end; cbn [negb]; db_simpl;
      (eexists; split; [reflexivity |]); db_simpl;
      (split; [reflexivity |]);
      (split; [| split;
                 [ intros k Hk; now rewrite ?lookup_alter_ne by congruence
                 | now rewrite !lookup_alter_eq, Ho ]]);
      rewrite !lookup_alter_eq, Hu; cbn [fmap option_fmap option_map];
      unfold add_points, with_tier; cbn [u_email u_name u_points_balance u_tier].
    + apply String.eqb_eq in Ht. rewrite <- Ht. reflexivity.
    + reflexivity.
Qed.

(** C1, as amended: the webhook has no guard on the order's status.  In
    any database the requests lead to, a confirmation for an order that
    is already paid is answered with success and applied again: it
    appends an EARN entry, after a SPEND entry when points were used, and
    moves the balance by the points earned less the points used. *)
Theorem settlement_applied_on_every_delivery (rs : list Request)
    (signature : option string) (oid uid : Id) (n : Z) (dc : option Z)
    (o : Order) (u : User) :
  falsy signature = false ->
  orders (run rs empty_db) !! oid = Some o ->
  o_status o = paid ->
  users (run rs empty_db) !! uid = Some u ->
  let db := run rs empty_db in
  let spent := if 0 <? n then n else 0 in
  let earned :=
    calculatePointsEarned (o_total o) (getTier (Int (u_points_balance u - spent))) in
  let spend :=
    {| pt_id := next_id db; pt_user_id := uid; pt_amount := - n; pt_type := SPEND;
       pt_source := Some ORDER; pt_reference_id := Some oid |} in
  let earn :=
    {| pt_id := if 0 <? n then S (next_id db) else next_id db;
       pt_user_id := uid; pt_amount := earned; pt_type := EARN;
       pt_source := Some ORDER; pt_reference_id := Some oid |} in
  exists db' : DB,
    stripe_webhook signature
      (completed {| orderId := Some oid; md_userId := Some uid;
                    pointsUsed := Some n; md_discountCents := dc |}) db
    = (db', Ok tt) /\
    points_transactions db'
    = (points_transactions db ++ (if 0 <? n then [spend] else []) ++ [earn])%list /\
    balance_of uid db' = balance_of uid db - spent + earned /\
    o_status <$> orders db' !! oid = Some paid.
Proof.
  intros Hsig Ho Hp Hu db spent earned spend earn.
  destruct (stripe_webhook_settles db signature oid uid n dc o u
              (reachable_consistent rs) Hsig Ho Hu)
    as (db' & Hr & Hl & Hu' & _ & Ho').
  exists db'. split; [exact Hr |]. split; [exact Hl |]. split.
  - unfold balance_of. rewrite Hu'. unfold db. rewrite Hu. reflexivity.
  - rewrite Ho'. reflexivity.
Qed.

Lemma settlement_applied_on_every_delivery_witness :
  exists db' : DB,
    stripe_webhook (Some "t=2,v1=sig") first_confirmation db_520 = (db', Ok tt) /\
    points_transactions db'
    = (points_transactions db_520
       ++ [{| pt_id := 4%nat; pt_user_id := 0%nat; pt_amount := 517; pt_type := EARN;
              pt_source := Some ORDER; pt_reference_id := Some 2%nat |}])%list /\
    balance_of 0%nat db' = 1037.
Proof.
  destruct (settlement_applied_on_every_delivery
              (register_alice :: purchase 2%nat 47000) (Some "t=2,v1=sig")
              2%nat 0%nat 0 (Some 0)
              {| o_user_id := Some 0%nat; o_stripe_session_id := Some "cs_test";
                 o_status := paid; o_subtotal := 47000; o_discount := 0;
                 o_points_used := 0; o_points_earned := 470; o_total := 47000;
                 o_items_json := [item 47000] |}
              {| u_email := "alice@lunara.de"; u_name := Some "Alice";
                 u_points_balance := 520; u_tier := "ECLIPSE" |}
              ltac:(reflexivity) ltac:(vm_compute; reflexivity) ltac:(reflexivity)
              ltac:(vm_compute; reflexivity))
    as (db' & Hr & Hl & Hb & _).
  exists db'. split; [exact Hr |]. split; [exact Hl |]. exact Hb.
Defined.

(** C1 as stated fails: the second delivery of the confirmation of the
    paid order 2 adds a ledger entry and changes the balance. *)
Lemma second_delivery_not_noop :
  o_status <$> orders db_520 !! 2%nat = Some paid /\
  ~ redelivery_is_noop (Some "t=2,v1=sig") first_confirmation 0%nat db_520.
Proof.
  split; [vm_compute; reflexivity |].
  intros (_ & _ & Hb). vm_compute in Hb. discriminate.
Qed.

(** ** Tier after settlement *)

(** Without a redemption the settlement leaves the stored tier at the
    tier of the new balance. *)
Lemma tier_follows_balance_without_redemption (rs : list Request)
    (signature : option string) (oid uid : Id) (dc : option Z)
    (o : Order) (u : User) :
  falsy signature = false ->
  orders (run rs empty_db) !! oid = Some o ->
  users (run rs empty_db) !! uid = Some u ->
  tier_follows_balance uid
    (fst (stripe_webhook signature
            (completed {| orderId := Some oid; md_userId := Some uid;
                          pointsUsed := Some 0; md_discountCents := dc |})
            (run rs empty_db))).
Proof.
  intros Hsig Ho Hu.
  destruct (stripe_webhook_settles (run rs empty_db) signature oid uid 0 dc o u
              (reachable_consistent rs) Hsig Ho Hu)
    as (db' & Hr & _ & Hu' & _).
  unfold completed. rewrite Hr. cbn [fst].
  unfold tier_follows_balance, tier_of, balance_of. rewrite Hu'.
  cbn [fmap option_fmap option_map u_tier u_points_balance Z.ltb Z.compare].
  now rewrite !Z.sub_0_r.
Qed.

(** The scenario of the specification: at balance 480 an order that
    earns 30 points ends at balance 510 with tier ECLIPSE. *)
Example tier_promoted_480_to_510 :
  balance_of 0%nat db_480 = 480 /\
  tier_of 0%nat db_480 = Some "MOON" /\
  let db := run (purchase 4%nat 3000) db_480 in
  balance_of 0%nat db = 510 /\ tier_of 0%nat db = Some "ECLIPSE".
Proof. vm_compute. repeat split; reflexivity. Qed.

(** C8 fails on the code when points are redeemed: [newPoints] subtracts
    the points used from a balance read after their deduction.  Alice,
    at 520 points and tier ECLIPSE, redeems 40 points on an order that
    earns 38: the balance ends at 518, in the range of ECLIPSE, and the
    stored tier is MOON. *)
Theorem tier_stale_after_redemption :
  balance_of 0%nat db_520 = 520 /\
  tier_of 0%nat db_520 = Some "ECLIPSE" /\
  balance_of 0%nat db_redeemed = 518 /\
  tier_of 0%nat db_redeemed = Some "MOON" /\
  Tier.name (getTier (Int (balance_of 0%nat db_redeemed))) = "ECLIPSE" /\
  ~ tier_follows_balance 0%nat db_redeemed.
Proof.
  vm_compute. repeat split; try reflexivity. intros H. discriminate.
Qed.

(** ** Redemption at checkout *)

Lemma subtotalCents_of_nil : subtotalCents_of [] = 0.
Proof. reflexivity. Qed.

(** What [create-session] does for a signed-in user who redeems [r]
    points, no more than usable, on a cart that reaches the minimum. *)
Lemma create_session_redeems (db : DB) (s : Session) (u : User)
    (items : list CartItem) (r : Z) (sid url : string) :
  consistent db ->
  users db !! userId s = Some u ->
  MIN_ORDER_FOR_REDEMPTION * 100 <= subtotalCents_of items ->
  0 < r <= maxPoints (calculateMaxDiscount (subtotalCents_of items) (u_points_balance u)) ->
  exists (db1 : DB) (request : SessionCreateParams),
    create_session (Some s) items (Some r) (Some (sid, url)) db
    = (db1, Ok {| sessionId := sid; url := url; body_orderId := next_id db;
                  stripe_request := request |}) /\
    metadata request
    = {| orderId := Some (next_id db); md_userId := Some (userId s);
         pointsUsed := Some r; md_discountCents := Some (r / 20 * 100) |} /\
    orders db1 !! next_id db
    = Some {| o_user_id := Some (userId s); o_stripe_session_id := Some sid;
              o_status := pending; o_subtotal := subtotalCents_of items;
              o_discount := r / 20 * 100; o_points_used := r;
              o_points_earned := 0;
              o_total := subtotalCents_of items - r / 20 * 100;
              o_items_json := items |} /\
    users db1 = users db /\
    points_transactions db1 = points_transactions db /\
    next_id db1 = S (next_id db) /\
    consistent db1.
Proof.
  intros Hc Hu Hmin [Hr0 Hr1].
  assert (Hnew : orders db !! next_id db = None).
  { destruct (orders db !! next_id db) eqn:E; [| reflexivity].
    assert (next_id db < next_id db)%nat by (apply Hc; eauto). lia. }
  pose proof (keeps_create_session (Some s) items (Some r) (Some (sid, url)) db Hc)
    as Hc1.
  revert Hc1.
  unfold create_session, try_catch, bind, ret, raise, select_user, generateId,
    insert_order, update_order.
  destruct items as [| it items'].
  { rewrite subtotalCents_of_nil in Hmin. unfold MIN_ORDER_FOR_REDEMPTION in Hmin. lia. }
  cbn [length Nat.eqb].
  set (items := it :: items') in *.
  replace (0 <? r) with true by (symmetry; apply Z.ltb_lt; lia).
  db_simpl. rewrite Hu.
  replace (MIN_ORDER_FOR_REDEMPTION * 100 <=? subtotalCents_of items) with true
    by (symmetry; apply Z.leb_le; lia).
  rewrite Z.min_l by exact Hr1.
  unfold POINTS_PER_EURO_DISCOUNT. rewrite (Qfloor_div r 20).
  db_simpl. rewrite Hnew.
  cbn [o_user_id]. rewrite Hu. db_simpl.
  intros Hc1.
  eexists. eexists. split; [reflexivity |].
  db_simpl. cbn [metadata].
  split; [reflexivity |].
  split; [now rewrite lookup_alter_eq, lookup_insert_eq |].
  repeat (split; [reflexivity |]). exact Hc1.
Qed.

(** C10: a checkout that requests [r] points, more than none and no more
    than usable, records [r] points used and a discount of
    [floor(r / 20) * 100] cents; the settlement of that order deducts all
    [r] points, so that the [r mod 20] points, up to 19, that buy no
    discount are spent as well. *)
Theorem redeemed_points_not_rounded (rs : list Request) (s : Session) (u : User)
    (items : list CartItem) (r : Z) (sid url : string) (signature : option string) :
  users (run rs empty_db) !! userId s = Some u ->
  MIN_ORDER_FOR_REDEMPTION * 100 <= subtotalCents_of items ->
  0 < r <= maxPoints (calculateMaxDiscount (subtotalCents_of items) (u_points_balance u)) ->
  falsy signature = false ->
  let db := run rs empty_db in
  let discount := r / POINTS_PER_EURO_DISCOUNT * 100 in
  let earned :=
    calculatePointsEarned (subtotalCents_of items - discount)
      (getTier (Int (u_points_balance u - r))) in
  exists (db1 db2 : DB) (body : CheckoutBody) (o : Order),
    create_session (Some s) items (Some r) (Some (sid, url)) db = (db1, Ok body) /\
    orders db1 !! body_orderId body = Some o /\
    o_points_used o = r /\
    o_discount o = discount /\
    o_total o = subtotalCents_of items - discount /\
    pointsUsed (metadata (stripe_request body)) = Some r /\
    stripe_webhook signature (completed (metadata (stripe_request body))) db1
    = (db2, Ok tt) /\
    points_transactions db2
    = (points_transactions db
       ++ [{| pt_id := S (next_id db); pt_user_id := userId s; pt_amount := - r;
              pt_type := SPEND; pt_source := Some ORDER;
              pt_reference_id := Some (body_orderId body) |};
           {| pt_id := S (S (next_id db)); pt_user_id := userId s;
              pt_amount := earned; pt_type := EARN; pt_source := Some ORDER;
              pt_reference_id := Some (body_orderId body) |}])%list /\
    balance_of (userId s) db2 = u_points_balance u - r + earned /\
    r - POINTS_PER_EURO_DISCOUNT * (discount / 100) = r mod 20 /\
    0 <= r mod 20 <= 19.
Proof.
  intros Hu Hmin Hr Hsig db discount earned.
  destruct (create_session_redeems db s u items r sid url
              (reachable_consistent rs) Hu Hmin Hr)
    as (db1 & request & Hcs & Hmd & Ho & Hus & Hl & Hn & Hc1).
  assert (Hu1 : users db1 !! userId s = Some u) by (now rewrite Hus).
  destruct (stripe_webhook_settles db1 signature (next_id db) (userId s) r
              (Some (r / 20 * 100)) _ u Hc1 Hsig Ho Hu1)
    as (db2 & Hwh & Hl2 & Hu2 & _ & _).
  assert (Hpos : (0 <? r) = true) by (apply Z.ltb_lt; lia).
  rewrite Hpos in Hl2, Hu2. cbn [o_total] in Hl2, Hu2.
  eexists db1, db2, _, _.
  split; [exact Hcs |]. cbn [body_orderId stripe_request].
  split; [exact Ho |]. cbn [o_points_used o_discount o_total].
  split; [reflexivity |]. split; [reflexivity |]. split; [reflexivity |].
  rewrite Hmd. cbn [pointsUsed].
  split; [reflexivity |].
  split; [exact Hwh |].
  split; [rewrite Hl2, Hl, Hn; reflexivity |].
  split; [unfold balance_of; rewrite Hu2; reflexivity |].
  unfold discount, POINTS_PER_EURO_DISCOUNT.
  rewrite Z.div_mul by lia.
  pose proof (Z.div_mod r 20 ltac:(lia)).
  pose proof (Z.mod_pos_bound r 20 ltac:(lia)).
  lia.
Qed.

Lemma redeemed_points_not_rounded_witness :
  exists (db1 db2 : DB) (body : CheckoutBody) (o : Order),
    create_session (Some alice) [item 4000] (Some 39)
      (Some ("cs_test", "https://checkout")) db_520 = (db1, Ok body) /\
    orders db1 !! body_orderId body = Some o /\
    o_points_used o = 39 /\
    o_discount o = 100 /\
    stripe_webhook (Some "t=1,v1=sig") (completed (metadata (stripe_request body))) db1
    = (db2, Ok tt) /\
    balance_of 0%nat db2 = 520 - 39 + 39 /\
    39 - POINTS_PER_EURO_DISCOUNT * (100 / 100) = 19.
Proof.
  destruct (redeemed_points_not_rounded
              (register_alice :: purchase 2%nat 47000) alice
              {| u_email := "alice@lunara.de"; u_name := Some "Alice";
                 u_points_balance := 520; u_tier := "ECLIPSE" |}
              [item 4000] 39 "cs_test" "https://checkout" (Some "t=1,v1=sig")
              ltac:(vm_compute; reflexivity)
              ltac:(vm_compute; discriminate)
              ltac:(split; vm_compute; [reflexivity | discriminate])
              ltac:(reflexivity))
    as (db1 & db2 & body & o & H1 & H2 & H3 & H4 & _ & _ & H7 & _ & H9 & H10 & _).
  exists db1, db2, body, o.
  split; [exact H1 |]. split; [exact H2 |]. split; [exact H3 |].
  split; [exact H4 |]. split; [exact H7 |]. split; [exact H9 |]. exact H10.
Defined.

(** * Further properties of the code *)

(** ** The discount calculator *)

(** The bounds of [calculateMaxDiscount] for a cart and a balance that
    are not negative. *)
Lemma max_points_bounds (cart balance : Z) :
  0 <= cart ->
  0 <= balance ->
  0 <= maxDiscountCents (calculateMaxDiscount cart balance) /\
  0 <= maxPoints (calculateMaxDiscount cart balance) <= balance /\
  maxPoints (calculateMaxDiscount cart balance) * 5
  <= maxDiscountCents (calculateMaxDiscount cart balance).
Proof.
  intros Hc Hb. rewrite maxPoints_eq, maxDiscountCents_eq.
  set (m := Z.min (cart * 20 / 100) (balance / 20 * 100)).
  assert (H1 : 0 <= cart * 20 / 100) by (apply Z.div_pos; lia).
  assert (H2 : 0 <= balance / 20) by (apply Z.div_pos; lia).
  assert (H3 : 20 * (balance / 20) <= balance) by (apply Z.mul_div_le; lia).
  assert (Hm : 0 <= m <= balance / 20 * 100) by lia.
  assert (H4 : 0 <= m * 20 / 100) by (apply Z.div_pos; lia).
  assert (H5 : 100 * (m * 20 / 100) <= m * 20) by (apply Z.mul_div_le; lia).
  lia.
Qed.

(** X1: for a cart and a balance that are not negative,
    [calculateMaxDiscount] offers no more points than the balance holds,
    and neither the points nor the discount cap is negative; the points
    offered are worth at most the cap, at 5 cents a point. *)
Theorem max_points_within_balance (cart balance : Z) :
  0 <= cart ->
  0 <= balance ->
  0 <= maxDiscountCents (calculateMaxDiscount cart balance) /\
  0 <= maxPoints (calculateMaxDiscount cart balance) <= balance /\
  maxPoints (calculateMaxDiscount cart balance) * 5
  <= maxDiscountCents (calculateMaxDiscount cart balance).
Proof. apply max_points_bounds. Qed.

Lemma max_points_within_balance_witness :
  0 <= maxPoints (calculateMaxDiscount 3333 150) <= 150 /\
  maxPoints (calculateMaxDiscount 3333 150) * 5
  <= maxDiscountCents (calculateMaxDiscount 3333 150).
Proof.
  destruct (max_points_within_balance 3333 150 ltac:(lia) ltac:(lia))
    as (_ & H2 & H3).
  exact (conj H2 H3).
Defined.

(** X2: when no points are requested, [calculate-discount] grants the
    discount cap rounded down to whole euros, which is less than the
    [maxDiscountCents] it reports whenever the cap is not a multiple of
    100; every discount it answers is a multiple of 100 and at most the
    one granted without a request. *)
Theorem discount_at_maximum_rounds_down (db : DB) (session : Session) (user : User)
    (cart : Z) :
  users db !! userId session = Some user ->
  MIN_ORDER_FOR_REDEMPTION * 100 <= cart ->
  exists body : DiscountBody,
    calculate_discount (Some session) cart None db = Ok body /\
    discountCents body = body_maxDiscountCents body / 100 * 100 /\
    (body_maxDiscountCents body mod 100 <> 0 ->
     discountCents body < body_maxDiscountCents body) /\
    forall (requested : option Z) (body' : DiscountBody),
      calculate_discount (Some session) cart requested db = Ok body' ->
      discountCents body' mod 100 = 0 /\
      discountCents body' <= discountCents body.
Proof.
  intros Hu Hmin.
  pose proof (calculate_discount_ok db session user cart None Hu Hmin) as E.
  cbv zeta in E.
  set (md := calculateMaxDiscount cart (u_points_balance user)) in *.
  assert (Hmp : maxPoints md = maxDiscountCents md * 20 / 100) by apply maxPoints_eq.
  assert (Hq : maxPoints md / 20 = maxDiscountCents md / 100).
  { rewrite Hmp. rewrite Z.div_div by lia.
    apply Z.div_mul_cancel_r; lia. }
  eexists. split; [exact E |].
  cbn [discountCents body_maxDiscountCents or_default].
  rewrite Z.min_id, Hq.
  split; [reflexivity |]. split.
  - intros Hmod.
    pose proof (Z.div_mod (maxDiscountCents md) 100 ltac:(lia)).
    pose proof (Z.mod_pos_bound (maxDiscountCents md) 100 ltac:(lia)). lia.
  - intros requested body' E'.
    rewrite (calculate_discount_ok db session user cart requested Hu Hmin) in E'.
    fold md in E'.
    assert (Hd : discountCents body'
                 = Z.min (or_default requested (maxPoints md)) (maxPoints md) / 20 * 100)
      by (inversion E'; reflexivity).
    rewrite Hd. split; [apply Z.mod_mul; lia |].
    rewrite <- Hq.
    apply Z.mul_le_mono_nonneg_r; [lia |].
    apply Z.div_le_mono; lia.
Qed.

Lemma discount_at_maximum_rounds_down_witness :
  exists body : DiscountBody,
    calculate_discount (Some alice) 3333 None db_1000 = Ok body /\
    body_maxDiscountCents body = 666 /\
    discountCents body = 600.
Proof.
  destruct (discount_at_maximum_rounds_down db_1000 alice
              {| u_email := "alice@lunara.de"; u_name := Some "Alice";
                 u_points_balance := 1000; u_tier := "ECLIPSE" |} 3333
              ltac:(vm_compute; reflexivity)
              ltac:(unfold MIN_ORDER_FOR_REDEMPTION; lia))
    as (body & E & Hd & _).
  exists body. split; [exact E |].
  assert (Hm : body_maxDiscountCents body = 666).
  { assert (E' : calculate_discount (Some alice) 3333 None db_1000
                 = Ok {| pointsAvailable := 1000; maxPointsUsable := 133;
                         body_maxDiscountCents := 666; pointsToUse := 133;
                         discountCents := 600; newTotal := 2733 |})
      by (vm_compute; reflexivity).
    rewrite E in E'. injection E' as ->. reflexivity. }
  split; [exact Hm |]. rewrite Hd, Hm. reflexivity.
Defined.

(** ** Points earning *)

(** X3: for an order total that is not negative, every tier earns at
    least one point per whole euro and at most a quarter more; a total
    below one euro earns nothing, and a larger total never earns less. *)
Theorem points_earned_bounds (total total' : Z) (t : Tier.t) :
  In t TIERS ->
  0 <= total ->
  total <= total' ->
  total / 100 <= calculatePointsEarned total t /\
  calculatePointsEarned total t * 4 <= total / 100 * 5 /\
  (total < 100 -> calculatePointsEarned total t = 0) /\
  calculatePointsEarned total t <= calculatePointsEarned total' t.
Proof.
  intros Ht H0 Hle. rewrite !calculatePointsEarned_eq.
  assert (Hb : 0 <= total / 100) by (apply Z.div_pos; lia).
  assert (Hm : total / 100 <= total' / 100) by (apply Z.div_le_mono; lia).
  assert (Hs : total < 100 -> total / 100 = 0) by (intros; apply Z.div_small; lia).
  simpl in Ht. destruct Ht as [<- | [<- | [<- | []]]]; simpl.
  - rewrite !Z.mul_1_r, !Z.div_1_r. repeat split; lia.
  - pose proof (Z.mul_div_le (total / 100 * 11) 10 ltac:(lia)).
    assert (total / 100 <= total / 100 * 11 / 10)
      by (apply Z.div_le_lower_bound; lia).
    assert (total / 100 * 11 / 10 <= total' / 100 * 11 / 10)
      by (apply Z.div_le_mono; lia).
    repeat split; lia.
  - pose proof (Z.mul_div_le (total / 100 * 5) 4 ltac:(lia)).
    assert (total / 100 <= total / 100 * 5 / 4)
      by (apply Z.div_le_lower_bound; lia).
    assert (total / 100 * 5 / 4 <= total' / 100 * 5 / 4)
      by (apply Z.div_le_mono; lia).
    repeat split; lia.
Qed.

Lemma points_earned_bounds_witness :
  3999 / 100 <= calculatePointsEarned 3999 NOVA /\
  calculatePointsEarned 3999 NOVA * 4 <= 3999 / 100 * 5 /\
  calculatePointsEarned 3999 NOVA <= calculatePointsEarned 4000 NOVA.
Proof.
  destruct (points_earned_bounds 3999 4000 NOVA ltac:(simpl; tauto)
              ltac:(lia) ltac:(lia)) as (H1 & H2 & _ & H4).
  exact (conj H1 (conj H2 H4)).
Defined.

(** ** Tiers *)

(** X4: a larger balance never gets a lower tier: the tier's lower bound
    and its bonus multiplier do not decrease, negative balances
    included. *)
Theorem tier_monotone (b b' : Z) :
  b <= b' ->
  Tier.min (getTier (Int b)) <= Tier.min (getTier (Int b')) /\
  (Tier.bonusMultiplier (getTier (Int b)) <= Tier.bonusMultiplier (getTier (Int b')))%Q.
Proof.
  intros Hle. rewrite !getTier_cases.
  destruct (0 <=? b) eqn:H0, (b <=? 499) eqn:H1; simpl;
    destruct (500 <=? b) eqn:H2, (b <=? 1499) eqn:H3; simpl;
    destruct (1500 <=? b) eqn:H4; simpl; try lia;
    destruct (0 <=? b') eqn:H0', (b' <=? 499) eqn:H1'; simpl;
    destruct (500 <=? b') eqn:H2', (b' <=? 1499) eqn:H3'; simpl;
    destruct (1500 <=? b') eqn:H4'; simpl; try lia;
    (split; [lia | unfold Qle; simpl; lia]).
Qed.

Lemma tier_monotone_witness :
  Tier.min (getTier (Int (-20))) <= Tier.min (getTier (Int 1500)).
Proof. exact (proj1 (tier_monotone (-20) 1500 ltac:(lia))). Defined.

(** X5: [GET /api/points] reports the tier of the balance, whatever tier
    is stored.  For a balance that is not negative, a next tier is
    reported exactly below 1500 points; it differs from the current one,
    [pointsToNext] is positive and earning that many points reaches it.
    From 1500 points on there is no next tier and [pointsToNext] is 0. *)
Theorem points_to_next_reaches_next_tier (db : DB) (session : Session) (user : User) :
  users db !! userId session = Some user ->
  0 <= u_points_balance user ->
  exists body : PointsBody,
    get_points (Some session) db = Ok body /\
    pb_points body = u_points_balance user /\
    pb_tier body = Tier.name (getTier (Int (u_points_balance user))) /\
    (u_points_balance user < 1500 ->
     exists next : Tier.t,
       pb_next body = Some next /\
       next <> pb_current body /\
       0 < pb_pointsToNext body /\
       getTier (Int (u_points_balance user + pb_pointsToNext body)) = next) /\
    (1500 <= u_points_balance user ->
     pb_next body = None /\ pb_pointsToNext body = 0).
Proof.
  intros Hu Hb. unfold get_points. rewrite Hu.
  eexists. split; [reflexivity |].
  cbn [pb_points pb_tier pb_next pb_current pb_pointsToNext].
  split; [reflexivity |]. split; [reflexivity |].
  set (b := u_points_balance user) in *.
  unfold TIERS. cbn [find Tier.min MOON ECLIPSE NOVA].
  rewrite getTier_cases.
  destruct (b <? 0) eqn:E0; [lia |].
  destruct (b <? 500) eqn:E1; [| destruct (b <? 1500) eqn:E2].
  - split; [| lia]. intros _. exists ECLIPSE.
    replace ((0 <=? b) && (b <=? 499)) with true
      by (symmetry; apply andb_true_iff; lia).
    split; [reflexivity |]. split; [discriminate |].
    split; [simpl; lia |].
    replace (b + (Tier.min ECLIPSE - b)) with 500 by (simpl; lia). reflexivity.
  - split; [| lia]. intros _. exists NOVA.
    replace ((0 <=? b) && (b <=? 499)) with false
      by (symmetry; apply andb_false_iff; lia).
    replace ((500 <=? b) && (b <=? 1499)) with true
      by (symmetry; apply andb_true_iff; lia).
    split; [reflexivity |]. split; [discriminate |].
    split; [simpl; lia |].
    replace (b + (Tier.min NOVA - b)) with 1500 by (simpl; lia). reflexivity.
  - split; [lia |]. intros _. split; reflexivity.
Qed.

Lemma points_to_next_reaches_next_tier_witness :
  exists body : PointsBody,
    get_points (Some alice) db_redeemed = Ok body /\
    pb_points body = 518 /\
    pb_tier body = "ECLIPSE" /\
    pb_next body = Some NOVA /\
    pb_pointsToNext body = 982.
Proof.
  destruct (points_to_next_reaches_next_tier db_redeemed alice
              {| u_email := "alice@lunara.de"; u_name := Some "Alice";
                 u_points_balance := 518; u_tier := "MOON" |}
              ltac:(vm_compute; reflexivity) ltac:(simpl; lia))
    as (body & E & Hp & Ht & _).
  exists body. split; [exact E |]. split; [exact Hp |]. split; [exact Ht |].
  assert (E' : get_points (Some alice) db_redeemed
               = Ok {| pb_points := 518; pb_tier := "ECLIPSE"; pb_current := ECLIPSE;
                       pb_next := Some NOVA; pb_pointsToNext := 982;
                       pb_config := {| earnPerEuro := 1; pointsPerEuroDiscount := 20;
                                       maxDiscountPercent := 20;
                                       minOrderForRedemption := 30 |} |})
    by (vm_compute; reflexivity).
  rewrite E in E'. injection E' as ->. split; reflexivity.
Defined.

(** ** Addresses *)

Lemma lower_ascii_idempotent (c : ascii) :
  lower_ascii (lower_ascii c) = lower_ascii c.
Proof. destruct c as [[] [] [] [] [] [] [] []]; reflexivity. Qed.

Lemma toLowerCase_idempotent (s : string) :
  toLowerCase (toLowerCase s) = toLowerCase s.
Proof.
  induction s as [| c s IH]; simpl; [reflexivity |].
  now rewrite lower_ascii_idempotent, IH.
Qed.

(** What [SELECT id FROM users WHERE email = ?] finds. *)
Lemma select_user_id_by_email_None (email : string) (db : DB) :
  snd (select_user_id_by_email email db) = Some None <->
  forall (k : Id) (u : User), users db !! k = Some u -> u_email u <> email.
Proof.
  unfold select_user_id_by_email. cbn [snd]. split.
  - intros H k u Hk E.
    destruct (find _ _) as [x |] eqn:Hf; [discriminate |].
    assert (Hin : In (k, u) (map_to_list (users db)))
      by (apply list_elem_of_In, elem_of_map_to_list, Hk).
    pose proof (find_none _ _ Hf _ Hin) as Hn. simpl in Hn.
    apply String.eqb_neq in Hn. contradiction.
  - intros H. destruct (find _ _) as [[k u] |] eqn:Hf; [| reflexivity].
    apply find_some in Hf as [Hin He]. simpl in He.
    apply list_elem_of_In, elem_of_map_to_list in Hin.
    apply String.eqb_eq in He. now destruct (H k u Hin).
Qed.



Lemma keeps_accounts_refl (db : DB) : keeps_accounts db db.
Proof. intros H. exact H. Qed.

Lemma keeps_accounts_trans (a b c : DB) :
  keeps_accounts a b -> keeps_accounts b c -> keeps_accounts a c.
Proof. unfold keeps_accounts. auto. Qed.

(** A step that leaves the addresses of the users and the subscribers
    alone, and may remove users. *)
Lemma accounts_inert (db db' : DB) :
  accounts_ok db ->
  (forall k u', users db' !! k = Some u' ->
     exists u, users db !! k = Some u /\ u_email u = u_email u') ->
  newsletter_subscribers db' = newsletter_subscribers db ->
  (next_id db <= next_id db')%nat ->
  accounts_ok db'.
Proof.
  intros ((Hl & Hls) & (Hu & Hus) & Hid) Hk Hs Hn.
  split; [split | split; [split |]].
  - intros k u' H. destruct (Hk k u' H) as (u & Hu' & <-). eauto.
  - now rewrite Hs.
  - intros k1 k2 u1 u2 H1 H2 E.
    destruct (Hk k1 u1 H1) as (v1 & Hv1 & E1).
    destruct (Hk k2 u2 H2) as (v2 & Hv2 & E2).
    apply (Hu k1 k2 v1 v2 Hv1 Hv2). congruence.
  - now rewrite Hs.
  - unfold subscriber_ids_generated. rewrite Hs.
    eapply Forall_impl; [exact Hid |]. simpl. intros; lia.
Qed.

Lemma lookup_alter_email (f : User -> User) (id k : Id) (us : gmap nat User) (u' : User) :
  (forall u, u_email (f u) = u_email u) ->
  alter f id us !! k = Some u' ->
  exists u, us !! k = Some u /\ u_email u = u_email u'.
Proof.
  intros Hf. rewrite lookup_alter. case_decide.
  - subst k. destruct (us !! id) as [u |]; [| discriminate].
    simpl. intros [= <-]. eauto.
  - eauto.
Qed.

Lemma accounts_generateId : respects keeps_accounts generateId.
Proof. intros db H. apply (accounts_inert db); simpl; eauto. Qed.

Lemma accounts_update_user (id : Id) (f : User -> User) :
  (forall u, u_email (f u) = u_email u) ->
  respects keeps_accounts (update_user id f).
Proof.
  intros Hf db H. apply (accounts_inert db); simpl; eauto.
  intros k u'. now apply lookup_alter_email.
Qed.

Lemma accounts_add_points id n : respects keeps_accounts (update_user id (add_points n)).
Proof. now apply accounts_update_user. Qed.

Lemma accounts_with_tier id t : respects keeps_accounts (update_user id (with_tier t)).
Proof. now apply accounts_update_user. Qed.

Lemma accounts_with_name id n : respects keeps_accounts (update_user id (with_name n)).
Proof. now apply accounts_update_user. Qed.

Lemma accounts_delete_user id : respects keeps_accounts (delete_user id).
Proof.
  intros db H. unfold delete_user. destruct (_ || _); [exact H |].
  apply (accounts_inert db); simpl; eauto.
  intros k u' Hk. apply lookup_delete_Some in Hk as [_ Hk]. eauto.
Qed.

Lemma accounts_insert_points_transaction r :
  respects keeps_accounts (insert_points_transaction r).
Proof.
  intros db H. unfold insert_points_transaction.
  destruct (existsb _ _); [exact H |].
  destruct (users db !! pt_user_id r); [| exact H].
  apply (accounts_inert db); simpl; eauto.
Qed.

Lemma accounts_delete_points_transactions id :
  respects keeps_accounts (delete_points_transactions id).
Proof. intros db H. apply (accounts_inert db); simpl; eauto. Qed.

Lemma accounts_insert_order id o : respects keeps_accounts (insert_order id o).
Proof.
  intros db H. unfold insert_order.
  destruct (orders db !! id); [exact H |].
  destruct (o_user_id o) as [uid |];
    [destruct (users db !! uid); [| exact H] |];
    apply (accounts_inert db); simpl; eauto.
Qed.

Lemma accounts_update_order id f : respects keeps_accounts (update_order id f).
Proof. intros db H. apply (accounts_inert db); simpl; eauto. Qed.

Lemma accounts_delete_orders id : respects keeps_accounts (delete_orders id).
Proof. intros db H. apply (accounts_inert db); simpl; eauto. Qed.

Lemma accounts_insert_user (id : Id) (e : string) (n : option string) (b : Z)
    (t : string) :
  respects keeps_accounts
    (insert_user id {| u_email := toLowerCase e; u_name := n;
                       u_points_balance := b; u_tier := t |}).
Proof.
  intros db ((Hl & Hls) & (Hu & Hus) & Hid). unfold insert_user.
  destruct (users db !! id) eqn:Hnew; [repeat split; assumption |].
  destruct (select_user_id_by_email _ db) as [db0 [[k |] |]] eqn:Hsel;
    try (repeat split; assumption).
  assert (Hfree : forall k u, users db !! k = Some u -> u_email u <> toLowerCase e).
  { apply select_user_id_by_email_None. cbn [u_email] in Hsel. now rewrite Hsel. }
  split; [split | split; [split |]]; simpl; try assumption.
  - intros k u. rewrite lookup_insert. case_decide.
    + intros [= <-]. simpl. apply toLowerCase_idempotent.
    + apply Hl.
  - intros k1 k2 u1 u2. rewrite !lookup_insert.
    repeat case_decide; subst; try congruence.
    + intros [= <-] H2 E. simpl in E. symmetry in E. now destruct (Hfree k2 u2 H2).
    + intros H1 [= <-] E. simpl in E. now destruct (Hfree k1 u1 H1).
    + apply Hu.
Qed.

Lemma accounts_insert_subscriber {B : Type} (e : string) (k : M B) :
  respects keeps_accounts k ->
  respects keeps_accounts
    (let* id := generateId in insert_subscriber id (toLowerCase e) ;; k).
Proof.
  intros Hk db ((Hl & Hls) & (Hu & Hus) & Hid).
  unfold bind, generateId, insert_subscriber.
  cbn [fst snd newsletter_subscribers set_next_id next_id].
  assert (Hid' : Forall (fun r : Id * string => (fst r < S (next_id db))%nat)
                   (newsletter_subscribers db)).
  { eapply Forall_impl; [exact Hid |]. simpl. intros; lia. }
  destruct (existsb _ _) eqn:Hex.
  { repeat split; assumption. }
  apply Hk.
  split; [split | split; [split |]]; simpl; try assumption.
  - apply Forall_app. split; [assumption |].
    constructor; [apply toLowerCase_idempotent | constructor].
  - rewrite map_app. simpl. apply NoDup_app. split; [assumption |].
    split; [| apply NoDup_singleton].
    intros x Hx Hx'. apply list_elem_of_In in Hx, Hx'.
    destruct Hx' as [<- | []].
    apply in_map_iff in Hx as ([i e'] & He & Hin). simpl in He. subst e'.
    assert (Ht : existsb (fun r : Id * string =>
                   Nat.eqb (fst r) (next_id db) || String.eqb (snd r) (toLowerCase e))
                   (newsletter_subscribers db) = true).
    { apply existsb_exists. exists (i, toLowerCase e). split; [exact Hin |].
      simpl. rewrite String.eqb_refl. apply orb_true_r. }
    congruence.
  - unfold subscriber_ids_generated. simpl. apply Forall_app. split; [assumption |].
    constructor; [simpl; lia | constructor].
Qed.

Create HintDb accounts.
#[local] Hint Resolve accounts_generateId accounts_add_points accounts_with_tier
  accounts_with_name accounts_delete_user accounts_insert_points_transaction
  accounts_delete_points_transactions accounts_insert_order accounts_update_order
  accounts_delete_orders accounts_insert_user : accounts.

Ltac accounts_steps :=
  respects_steps keeps_accounts_refl keeps_accounts_trans
    ltac:(auto with accounts) ltac:(apply accounts_insert_subscriber).

Lemma keeps_accounts_handle (r : Request) (db : DB) : keeps_accounts db (handle r db).
Proof.
  destruct r as [e p n | s n | s | s i p c | sg ev | s e]; unfold handle.
  - unfold register. apply respects_try_catch. accounts_steps.
  - unfold update_profile. destruct s; [| apply keeps_accounts_refl].
    apply respects_try_catch. accounts_steps.
  - unfold delete_account. destruct s; [| apply keeps_accounts_refl].
    apply respects_try_catch. accounts_steps.
  - unfold create_session. apply respects_try_catch. accounts_steps.
  - unfold stripe_webhook. destruct (falsy sg); [apply keeps_accounts_refl |].
    apply respects_try_catch. accounts_steps.
  - unfold newsletter_subscribe. apply respects_try_catch. accounts_steps.
Qed.

Lemma accounts_ok_empty : accounts_ok empty_db.
Proof.
  unfold accounts_ok, emails_lowercase, emails_unique, subscriber_ids_generated,
    empty_db.
  cbn [users newsletter_subscribers next_id map].
  repeat split; try constructor; intros *; rewrite lookup_empty; discriminate.
Qed.

Lemma reachable_accounts_ok (rs : list Request) : accounts_ok (run rs empty_db).
Proof.
  assert (H : forall db, accounts_ok db -> accounts_ok (run rs db)).
  { induction rs as [| r rs IH]; intros db Hdb; [exact Hdb |].
    simpl. apply IH. now apply keeps_accounts_handle. }
  apply H, accounts_ok_empty.
Qed.



(** X7: whatever requests were served, no two users share an address
    and no address is subscribed to the newsletter twice. *)
Theorem stored_emails_unique (rs : list Request) :
  (forall (k1 k2 : Id) (u1 u2 : User),
     users (run rs empty_db) !! k1 = Some u1 ->
     users (run rs empty_db) !! k2 = Some u2 ->
     u_email u1 = u_email u2 -> k1 = k2) /\
  NoDup (map snd (newsletter_subscribers (run rs empty_db))).
Proof. exact (proj1 (proj2 (reachable_accounts_ok rs))). Qed.

Lemma stored_emails_unique_witness :
  NoDup (map snd (newsletter_subscribers
                    (run [NewsletterSubscribe None (Some "eve@lunara.de");
                          NewsletterSubscribe None (Some "Eve@Lunara.DE");
                          NewsletterSubscribe None (Some "bob@lunara.de")]
                       empty_db))).
Proof.
  exact (proj2 (stored_emails_unique
                  [NewsletterSubscribe None (Some "eve@lunara.de");
                   NewsletterSubscribe None (Some "Eve@Lunara.DE");
                   NewsletterSubscribe None (Some "bob@lunara.de")])).
Defined.

(** ** Registration *)



(** ** Newsletter *)




Lemma subscribers_extend_refl (db : DB) : subscribers_extend db db.
Proof. exists []. now rewrite app_nil_r. Qed.


Lemma subscribers_extend_same (db db' : DB) :
  newsletter_subscribers db' = newsletter_subscribers db -> subscribers_extend db db'.
Proof. intros H. exists []. now rewrite app_nil_r. Qed.

Lemma subs_generateId : respects subscribers_extend generateId.
Proof. intros db. now apply subscribers_extend_same. Qed.

Lemma subs_insert_user id u : respects subscribers_extend (insert_user id u).
Proof.
  intros db. unfold insert_user.
  destruct (users db !! id); [apply subscribers_extend_refl |].
  destruct (select_user_id_by_email (u_email u) db) as [? [[?|]|]];
    now apply subscribers_extend_same.
Qed.

Lemma subs_update_user id f : respects subscribers_extend (update_user id f).
Proof. intros db. now apply subscribers_extend_same. Qed.

Lemma subs_delete_user id : respects subscribers_extend (delete_user id).
Proof.
  intros db. unfold delete_user. destruct (_ || _); now apply subscribers_extend_same.
Qed.

Lemma subs_insert_points_transaction r :
  respects subscribers_extend (insert_points_transaction r).
Proof.
  intros db. unfold insert_points_transaction.
  destruct (existsb _ _); [apply subscribers_extend_refl |].
  destruct (users db !! pt_user_id r); now apply subscribers_extend_same.
Qed.

Lemma subs_delete_points_transactions id :
  respects subscribers_extend (delete_points_transactions id).
Proof. intros db. now apply subscribers_extend_same. Qed.

Lemma subs_insert_order id o : respects subscribers_extend (insert_order id o).
Proof.
  intros db. unfold insert_order.
  destruct (orders db !! id); [apply subscribers_extend_refl |].
  destruct (o_user_id o) as [uid |]; [| now apply subscribers_extend_same].
  destruct (users db !! uid); now apply subscribers_extend_same.
Qed.

Lemma subs_update_order id f : respects subscribers_extend (update_order id f).
Proof. intros db. now apply subscribers_extend_same. Qed.

Lemma subs_delete_orders id : respects subscribers_extend (delete_orders id).
Proof. intros db. now apply subscribers_extend_same. Qed.

Lemma subs_insert_subscriber id e : respects subscribers_extend (insert_subscriber id e).
Proof.
  intros db. unfold insert_subscriber.
  destruct (existsb _ _); [apply subscribers_extend_refl |].
  now exists [(id, e)].
Qed.

Create HintDb subs.
#[local] Hint Resolve subs_generateId subs_insert_user subs_update_user
  subs_delete_user subs_insert_points_transaction subs_delete_points_transactions
  subs_insert_order subs_update_order subs_delete_orders subs_insert_subscriber
  : subs.






(** ** Checkout *)

(** What [create-session] returns and writes for a cart that is not
    empty, in a consistent database. *)
Lemma create_session_result (db : DB) (session : option Session)
    (items : list CartItem) (pointsToRedeem : option Z)
    (checkoutSession : option (string * string)) :
  consistent db ->
  items <> [] ->
  let o := order_of_checkout session items pointsToRedeem db in
  let db1 := set_next_id (S (next_id db)) db in
  let db2 := set_orders (insert (next_id db) o) db1 in
  exists request : SessionCreateParams,
    metadata request
    = {| orderId := Some (next_id db); md_userId := userId <$> session;
         pointsUsed := Some (o_points_used o);
         md_discountCents := Some (o_discount o) |} /\
    discounts request
    = (if 0 <? o_discount o then Some (o_discount o) else None) /\
    create_session session items pointsToRedeem checkoutSession db
    = match session with
      | Some s =>
          match users db !! userId s, checkoutSession with
          | None, _ => (db1, Fail 500 CheckoutFailed)
          | Some _, None => (db2, Fail 500 CheckoutFailed)
          | Some _, Some (id, url) =>
              (set_orders (alter (with_stripe_session_id id) (next_id db)) db2,
               Ok {| sessionId := id; url := url; body_orderId := next_id db;
                     stripe_request := request |})
          end
      | None =>
          match checkoutSession with
          | None => (db2, Fail 500 CheckoutFailed)
          | Some (id, url) =>
              (set_orders (alter (with_stripe_session_id id) (next_id db)) db2,
               Ok {| sessionId := id; url := url; body_orderId := next_id db;
                     stripe_request := request |})
          end
      end.
Proof.
  intros Hc Hitems o db1 db2. subst o db1 db2.
  assert (Hnew : orders db !! next_id db = None).
  { destruct (orders db !! next_id db) eqn:E; [| reflexivity].
    destruct Hc as (_ & _ & _ & _ & Hos).
    assert (next_id db < next_id db)%nat by (apply Hos; eauto). lia. }
  unfold create_session, order_of_checkout, redemption_of, try_catch, bind, ret,
    raise, select_user, generateId, insert_order, update_order.
  destruct items as [| it items']; [congruence |].
  cbn [length Nat.eqb].
  set (items := it :: items') in *.
  unfold POINTS_PER_EURO_DISCOUNT.
  destruct session as [s |]; [destruct (users db !! userId s) as [u |] eqn:Hu |];
    destruct pointsToRedeem as [r |]; try destruct (0 <? r) eqn:Hr;
    try destruct (MIN_ORDER_FOR_REDEMPTION * 100 <=? subtotalCents_of items) eqn:Hm;
    db_simpl; rewrite ?Hu; db_simpl; rewrite ?(Qfloor_div _ 20); rewrite ?Hnew;
    cbn [o_user_id fmap option_fmap option_map andb]; rewrite ?Hu; db_simpl;
    destruct checkoutSession as [[id url] |].
  all: eexists {| line_items := _; customer_email := _; metadata := _;
                  discounts := _ |}.
  all: cbn [metadata discounts].
  all: split; [reflexivity | split; [reflexivity |]].
  all: try reflexivity.
  Unshelve.
  all: first [exact [] | exact None].
Qed.

(** X11: how [create-session] fails, in any database the requests lead
    to.  An empty cart is answered 400 and nothing is written.  For a
    session whose user no longer exists the answer is 500 and no order
    is stored.  When the call to Stripe fails the answer is 500 as well,
    but the order written before the call stays stored, pending and
    without a Stripe session. *)
Theorem checkout_failures (rs : list Request) (session : option Session)
    (items : list CartItem) (pointsToRedeem : option Z)
    (checkoutSession : option (string * string)) :
  let db := run rs empty_db in
  let result := create_session session items pointsToRedeem checkoutSession db in
  (items = [] -> result = (db, Fail 400 CartEmpty)) /\
  (items <> [] ->
   (exists s, session = Some s /\ users db !! userId s = None) ->
   snd result = Fail 500 CheckoutFailed /\
   orders (fst result) = orders db /\
   users (fst result) = users db /\
   points_transactions (fst result) = points_transactions db) /\
  (items <> [] ->
   (forall s, session = Some s -> is_Some (users db !! userId s)) ->
   checkoutSession = None ->
   snd result = Fail 500 CheckoutFailed /\
   orders (fst result) !! next_id db
   = Some (order_of_checkout session items pointsToRedeem db) /\
   o_status (order_of_checkout session items pointsToRedeem db) = pending /\
   o_stripe_session_id (order_of_checkout session items pointsToRedeem db) = None).
Proof.
  intros db result. subst result.
  split; [| split].
  - intros ->. reflexivity.
  - intros Hitems (s & -> & Hu).
    destruct (create_session_result db (Some s) items pointsToRedeem checkoutSession
                (reachable_consistent rs) Hitems) as (request & _ & _ & E).
    rewrite E, Hu. repeat split; reflexivity.
  - intros Hitems Hs ->.
    destruct (create_session_result db session items pointsToRedeem None
                (reachable_consistent rs) Hitems) as (request & _ & _ & E).
    rewrite E.
    assert (Hr : (match session with
                  | Some s =>
                      match users db !! userId s with
                      | Some _ =>
                          (set_orders
                             (insert (next_id db)
                                (order_of_checkout session items pointsToRedeem db))
                             (set_next_id (S (next_id db)) db),
                           @Fail CheckoutBody 500 CheckoutFailed)
                      | None => (set_next_id (S (next_id db)) db, Fail 500 CheckoutFailed)
                      end
                  | None =>
                      (set_orders
                         (insert (next_id db)
                            (order_of_checkout session items pointsToRedeem db))
                         (set_next_id (S (next_id db)) db),
                       Fail 500 CheckoutFailed)
                  end)
                 = (set_orders
                      (insert (next_id db)
                         (order_of_checkout session items pointsToRedeem db))
                      (set_next_id (S (next_id db)) db),
                    Fail 500 CheckoutFailed)).
    { destruct session as [s |]; [| reflexivity].
      destruct (Hs s eq_refl) as [u ->]. reflexivity. }
    rewrite Hr. cbn [fst snd orders set_orders].
    rewrite lookup_insert_eq. repeat split; reflexivity.
Qed.

Lemma checkout_failures_witness :
  let gone := {| userId := 9%nat; email := "gone@lunara.de" |} in
  snd (create_session (Some gone) [item 4000] None (Some ("cs", "u")) db_520)
  = Fail 500 CheckoutFailed /\
  orders (fst (create_session (Some alice) [item 4000] None None db_520)) !! 4%nat
  = Some (order_of_checkout (Some alice) [item 4000] None db_520).
Proof.
  intros gone.
  destruct (checkout_failures (register_alice :: purchase 2%nat 47000) (Some gone)
              [item 4000] None (Some ("cs", "u"))) as (_ & H2 & _).
  destruct (checkout_failures (register_alice :: purchase 2%nat 47000) (Some alice)
              [item 4000] None None) as (_ & _ & H3).
  split.
  - apply H2; [discriminate |]. exists gone. split; [reflexivity |].
    vm_compute. reflexivity.
  - apply H3; [discriminate | | reflexivity].
    intros s [= <-]. vm_compute. eauto.
Defined.

(** X12: the order of a successful checkout of a signed-in user whose
    balance is not negative.  The points it records as used are not
    negative, at most the balance and at most the points requested; the
    discount is [floor(used / 20) * 100], it is granted only from the
    minimum order on and is then at most 20 percent of the subtotal; the
    total is the subtotal less the discount. *)
Theorem checkout_within_balance (rs : list Request) (s : Session) (u : User)
    (items : list CartItem) (pointsToRedeem : option Z) (sid url : string) :
  users (run rs empty_db) !! userId s = Some u ->
  0 <= u_points_balance u ->
  items <> [] ->
  exists (db' : DB) (body : CheckoutBody) (o : Order),
    create_session (Some s) items pointsToRedeem (Some (sid, url)) (run rs empty_db)
    = (db', Ok body) /\
    orders db' !! body_orderId body = Some o /\
    o_status o = pending /\
    0 <= o_points_used o <= u_points_balance u /\
    (forall r, pointsToRedeem = Some r -> 0 < r -> o_points_used o <= r) /\
    o_discount o = o_points_used o / 20 * 100 /\
    0 <= o_discount o /\
    (0 < o_discount o ->
     MIN_ORDER_FOR_REDEMPTION * 100 <= o_subtotal o /\
     o_discount o <= o_subtotal o * 20 / 100) /\
    o_total o = o_subtotal o - o_discount o.
Proof.
  intros Hu Hb Hitems. set (db := run rs empty_db) in *.
  destruct (create_session_result db (Some s) items pointsToRedeem (Some (sid, url))
              (reachable_consistent rs) Hitems) as (request & _ & _ & E).
  rewrite Hu in E. rewrite E.
  eexists _, _, _. split; [reflexivity |].
  cbn [body_orderId orders set_orders].
  rewrite lookup_alter_eq, lookup_insert_eq.
  cbn [fmap option_fmap option_map].
  split; [reflexivity |].
  unfold with_stripe_session_id, order_of_checkout, redemption_of.
  cbn [o_status o_points_used o_discount o_subtotal o_total].
  rewrite Hu.
  split; [reflexivity |].
  destruct pointsToRedeem as [r |].
  2: { cbn [fst snd]. repeat split; try lia; try discriminate. }
  destruct ((0 <? r) && (MIN_ORDER_FOR_REDEMPTION * 100 <=? subtotalCents_of items))
    eqn:Hcond.
  2: { cbn [fst snd]. repeat split; lia. }
  apply andb_true_iff in Hcond as [Hr Hm].
  apply Z.ltb_lt in Hr. apply Z.leb_le in Hm.
  unfold MIN_ORDER_FOR_REDEMPTION in Hm.
  cbv zeta. cbn [fst snd].
  set (subtotal := subtotalCents_of items) in *.
  destruct (max_points_bounds subtotal (u_points_balance u) ltac:(lia) Hb)
    as (Hmd & Hmp & _).
  set (md := calculateMaxDiscount subtotal (u_points_balance u)) in *.
  set (used := Z.min r (maxPoints md)).
  assert (Hused : 0 <= used <= maxPoints md) by lia.
  assert (Hd : used / 20 * 100 <= maxDiscountCents md)
    by (apply (redeemed_discount_le used (maxPoints md)); [lia | apply maxPoints_eq]).
  assert (Hcap : maxDiscountCents md <= subtotal * 20 / 100)
    by (unfold md; rewrite maxDiscountCents_eq; lia).
  assert (H0 : 0 <= used / 20) by (apply Z.div_pos; lia).
  unfold POINTS_PER_EURO_DISCOUNT, MIN_ORDER_FOR_REDEMPTION.
  repeat split; try lia.
  intros r' [= <-] _. lia.
Qed.

Lemma checkout_within_balance_witness :
  exists (db' : DB) (body : CheckoutBody) (o : Order),
    create_session (Some alice) [item 4000] (Some 9999)
      (Some ("cs_test", "https://checkout")) db_520 = (db', Ok body) /\
    orders db' !! body_orderId body = Some o /\
    0 <= o_points_used o <= 520.
Proof.
  destruct (checkout_within_balance (register_alice :: purchase 2%nat 47000) alice
              {| u_email := "alice@lunara.de"; u_name := Some "Alice";
                 u_points_balance := 520; u_tier := "ECLIPSE" |}
              [item 4000] (Some 9999) "cs_test" "https://checkout"
              ltac:(vm_compute; reflexivity) ltac:(simpl; lia) ltac:(discriminate))
    as (db' & body & o & E & Ho & _ & Hused & _).
  exists db', body, o. split; [exact E |]. split; [exact Ho | exact Hused].
Defined.

Lemma set_orders_same (f : gmap nat Order -> gmap nat Order) (db : DB) :
  f (orders db) = orders db -> set_orders f db = db.
Proof. destruct db. unfold set_orders. simpl. now intros ->. Qed.

Lemma alter_missing (f : Order -> Order) (k : Id) (os : gmap nat Order) :
  os !! k = None -> alter f k os = os.
Proof.
  intros H. apply map_eq. intros j. rewrite lookup_alter.
  case_decide; [subst j; now rewrite H | reflexivity].
Qed.

(** ** Webhook *)

(** The confirmation of an order placed without a session. *)
Lemma stripe_webhook_guest (db : DB) (signature : option string) (oid : Id)
    (used dc : option Z) :
  falsy signature = false ->
  stripe_webhook signature
    (completed {| orderId := Some oid; md_userId := None; pointsUsed := used;
                  md_discountCents := dc |}) db
  = (set_orders (alter (with_status paid) oid) db, Ok tt).
Proof.
  intros Hsig. unfold stripe_webhook, completed. rewrite Hsig.
  unfold try_catch, bind, when, ret, raise, update_order, select_order.
  db_simpl. rewrite String.eqb_refl. db_simpl.
  destruct (alter (with_status paid) oid (orders db) !! oid); reflexivity.
Qed.

(** X13: a checkout without a session never involves points.  Whatever
    points are requested, the order has no user, no points used and no
    discount, its total is the subtotal, and no coupon is passed to
    Stripe.  The confirmation of that order marks it paid and changes no
    user and no ledger entry. *)
Theorem guest_checkout_without_points (rs : list Request) (items : list CartItem)
    (pointsToRedeem : option Z) (sid url : string) (signature : option string) :
  items <> [] ->
  falsy signature = false ->
  exists (db1 db2 : DB) (body : CheckoutBody) (o : Order),
    create_session None items pointsToRedeem (Some (sid, url)) (run rs empty_db)
    = (db1, Ok body) /\
    orders db1 !! body_orderId body = Some o /\
    o_user_id o = None /\
    o_points_used o = 0 /\
    o_discount o = 0 /\
    o_total o = subtotalCents_of items /\
    discounts (stripe_request body) = None /\
    stripe_webhook signature (completed (metadata (stripe_request body))) db1
    = (db2, Ok tt) /\
    orders db2 !! body_orderId body = Some (with_status paid o) /\
    users db2 = users (run rs empty_db) /\
    points_transactions db2 = points_transactions (run rs empty_db).
Proof.
  intros Hitems Hsig. set (db := run rs empty_db).
  destruct (create_session_result db None items pointsToRedeem (Some (sid, url))
              (reachable_consistent rs) Hitems) as (request & Hmd & Hdisc & E).
  rewrite E.
  eexists _, _, _, _. split; [reflexivity |].
  cbn [body_orderId stripe_request orders set_orders].
  rewrite lookup_alter_eq, lookup_insert_eq. cbn [fmap option_fmap option_map].
  split; [reflexivity |].
  unfold with_stripe_session_id, order_of_checkout, redemption_of.
  cbn [o_user_id o_points_used o_discount o_total fst snd fmap option_fmap option_map].
  repeat (split; [reflexivity || lia |]).
  split; [exact Hdisc |].
  rewrite Hmd. cbn [fmap option_fmap option_map].
  split; [apply stripe_webhook_guest; exact Hsig |].
  cbn [orders set_orders users set_next_id points_transactions].
  rewrite !lookup_alter_eq, lookup_insert_eq.
  repeat split; reflexivity.
Qed.

Lemma guest_checkout_without_points_witness :
  exists (db1 db2 : DB) (body : CheckoutBody) (o : Order),
    create_session None [item 4000] (Some 40) (Some ("cs_test", "https://checkout"))
      db_520 = (db1, Ok body) /\
    o_total o = 4000 /\
    stripe_webhook (Some "t=1,v1=sig") (completed (metadata (stripe_request body))) db1
    = (db2, Ok tt) /\
    points_transactions db2 = points_transactions db_520.
Proof.
  destruct (guest_checkout_without_points (register_alice :: purchase 2%nat 47000)
              [item 4000] (Some 40) "cs_test" "https://checkout" (Some "t=1,v1=sig")
              ltac:(discriminate) ltac:(reflexivity))
    as (db1 & db2 & body & o & E & _ & _ & _ & _ & Ht & _ & Hw & _ & _ & Hl).
  exists db1, db2, body, o.
  split; [exact E |]. split; [exact Ht |]. split; [exact Hw | exact Hl].
Defined.

(** X14: what the webhook ignores.  Without a signature header, or when
    the event cannot be constructed from the body, it answers 400; for an
    event of another type, for a completed session without an order
    identifier and for one whose order does not exist it answers
    "received".  In all five cases the database stays as it is. *)
Theorem webhook_ignored_events (db : DB) (signature : option string)
    (event : option Event) :
  (falsy signature = true ->
   stripe_webhook signature event db = (db, Fail 400 MissingSignature)) /\
  (falsy signature = false ->
   event = None ->
   stripe_webhook signature event db = (db, Fail 400 WebhookProcessingFailed)) /\
  (falsy signature = false ->
   forall ev : Event,
     event = Some ev ->
     ev_type ev <> "checkout.session.completed" \/
     orderId (default no_metadata (ev_metadata ev)) = None \/
     (exists oid, orderId (default no_metadata (ev_metadata ev)) = Some oid /\
                  orders db !! oid = None) ->
     stripe_webhook signature event db = (db, Ok tt)).
Proof.
  split; [| split].
  - intros H. unfold stripe_webhook. now rewrite H.
  - intros H ->. unfold stripe_webhook. now rewrite H.
  - intros H ev -> Hev. unfold stripe_webhook. rewrite H.
    unfold try_catch, bind, when, ret, raise, update_order, select_order.
    cbn [fst snd].
    destruct (String.eqb_spec (ev_type ev) "checkout.session.completed") as [Ht | Ht];
      [| reflexivity].
    destruct Hev as [Hev | [Hev | (oid & Hev & Ho)]]; [contradiction | |];
      rewrite Hev; [reflexivity |].
    cbn [fst snd orders set_orders].
    rewrite (alter_missing _ _ _ Ho), Ho.
    assert (set_orders (alter (with_status paid) oid) db = db) as E
      by (apply set_orders_same, alter_missing, Ho).
    destruct (md_userId _); cbn [fst snd]; now rewrite ?E.
Qed.

Lemma webhook_ignored_events_witness :
  stripe_webhook None first_confirmation db_520 = (db_520, Fail 400 MissingSignature) /\
  stripe_webhook (Some "t=1,v1=sig") None db_520
  = (db_520, Fail 400 WebhookProcessingFailed) /\
  stripe_webhook (Some "t=1,v1=sig") (completed (metadata_of 77%nat 0%nat 40 200)) db_520
  = (db_520, Ok tt).
Proof.
  split; [| split].
  - apply (webhook_ignored_events db_520 None first_confirmation). reflexivity.
  - apply (webhook_ignored_events db_520 (Some "t=1,v1=sig") None); reflexivity.
  - refine (proj2 (proj2 (webhook_ignored_events db_520 (Some "t=1,v1=sig")
                            (completed (metadata_of 77%nat 0%nat 40 200))))
              eq_refl _ eq_refl _).
    right. right. exists 77%nat. split; [reflexivity | vm_compute; reflexivity].
Defined.

(** ** Stored orders *)

Lemma keeps_orders_refl (db : DB) : keeps_orders db db.
Proof. intros H. exact H. Qed.

Lemma keeps_orders_trans (a b c : DB) :
  keeps_orders a b -> keeps_orders b c -> keeps_orders a c.
Proof. unfold keeps_orders. auto. Qed.

Lemma order_ok_users (db db' : DB) (o : Order) :
  (forall k, is_Some (users db !! k) -> is_Some (users db' !! k)) ->
  order_ok db o -> order_ok db' o.
Proof.
  intros Hu (H1 & H2 & H3 & H4 & H5 & H6).
  repeat (split; [assumption |]). intros uid E. apply Hu, H6, E.
Qed.

(** A step that leaves the orders alone and removes no user. *)
Lemma orders_inert (db db' : DB) :
  orders db' = orders db ->
  (forall k, is_Some (users db !! k) -> is_Some (users db' !! k)) ->
  keeps_orders db db'.
Proof.
  intros Ho Hu H k o Hk. rewrite Ho in Hk.
  apply (order_ok_users db); [exact Hu | exact (H k o Hk)].
Qed.

Lemma ord_generateId : respects keeps_orders generateId.
Proof. intros db. apply orders_inert; simpl; auto. Qed.

Lemma ord_insert_user id u : respects keeps_orders (insert_user id u).
Proof.
  intros db. unfold insert_user.
  destruct (users db !! id) eqn:Hid; [apply keeps_orders_refl |].
  destruct (select_user_id_by_email _ db) as [db0 [[k |] |]];
    try apply keeps_orders_refl.
  apply orders_inert; simpl; [reflexivity |].
  intros k Hk. rewrite lookup_insert. case_decide; [eauto | exact Hk].
Qed.

Lemma ord_update_user id f : respects keeps_orders (update_user id f).
Proof.
  intros db. apply orders_inert; simpl; [reflexivity |].
  intros k [u Hk]. rewrite lookup_alter. case_decide; [subst k |]; rewrite Hk; simpl; eauto.
Qed.

Lemma ord_insert_points_transaction r :
  respects keeps_orders (insert_points_transaction r).
Proof.
  intros db. unfold insert_points_transaction.
  destruct (existsb _ _); [apply keeps_orders_refl |].
  destruct (users db !! pt_user_id r); [| apply keeps_orders_refl].
  apply orders_inert; simpl; auto.
Qed.

Lemma ord_delete_points_transactions id :
  respects keeps_orders (delete_points_transactions id).
Proof. intros db. apply orders_inert; simpl; auto. Qed.

Lemma ord_insert_subscriber id e : respects keeps_orders (insert_subscriber id e).
Proof.
  intros db. unfold insert_subscriber.
  destruct (existsb _ _); [apply keeps_orders_refl |].
  apply orders_inert; simpl; auto.
Qed.

Lemma ord_delete_orders id : respects keeps_orders (delete_orders id).
Proof.
  intros db H k o Hk. simpl in Hk.
  apply map_lookup_filter_Some in Hk as [Hk _].
  exact (H k o Hk).
Qed.

Lemma ord_delete_user id : respects keeps_orders (delete_user id).
Proof.
  intros db H. unfold delete_user.
  destruct (existsb _ (points_transactions db) || existsb _ (map_to_list (orders db)))
    eqn:Hex; [exact H |].
  apply orb_false_iff in Hex as [_ Hex].
  intros k o Hk. simpl in Hk.
  destruct (H k o Hk) as (H1 & H2 & H3 & H4 & H5 & H6).
  repeat (split; [assumption |]).
  intros uid E. simpl. rewrite lookup_delete_ne; [now apply H6 |].
  intros <-.
  assert (Ht : existsb (fun kv : nat * Order => order_of id (snd kv))
                 (map_to_list (orders db)) = true).
  { apply existsb_exists. exists (k, o). split.
    - apply list_elem_of_In, elem_of_map_to_list, Hk.
    - unfold order_of. simpl. rewrite E. apply Nat.eqb_refl. }
  congruence.
Qed.

(** An [UPDATE orders] that leaves the amounts and the user alone and
    sets no status but [paid]. *)
Lemma ord_update_order id (f : Order -> Order) :
  (forall db o, order_ok db o -> order_ok db (f o)) ->
  respects keeps_orders (update_order id f).
Proof.
  intros Hf db H k o'. simpl. rewrite lookup_alter. case_decide.
  - subst k. destruct (orders db !! id) as [o |] eqn:Ho; [| discriminate].
    simpl. intros [= <-].
    apply (order_ok_users db); [auto |]. apply Hf, (H id o Ho).
  - intros Hk. apply (order_ok_users db); [auto |]. exact (H k o' Hk).
Qed.

Lemma ord_with_status_paid id : respects keeps_orders (update_order id (with_status paid)).
Proof.
  apply ord_update_order. intros db o (H1 & H2 & H3 & H4 & H5 & H6).
  unfold order_ok, with_status; simpl. auto 10.
Qed.

Lemma ord_with_points_earned id n :
  respects keeps_orders (update_order id (with_points_earned n)).
Proof.
  apply ord_update_order. intros db o H. exact H.
Qed.

Lemma ord_with_stripe_session_id id sid :
  respects keeps_orders (update_order id (with_stripe_session_id sid)).
Proof.
  apply ord_update_order. intros db o H. exact H.
Qed.

Create HintDb ord.
#[local] Hint Resolve ord_generateId ord_insert_user ord_update_user
  ord_insert_points_transaction ord_delete_points_transactions
  ord_insert_subscriber ord_delete_orders ord_delete_user ord_with_status_paid
  ord_with_points_earned ord_with_stripe_session_id : ord.

Ltac ord_steps :=
  respects_steps keeps_orders_refl keeps_orders_trans
    ltac:(auto with ord) ltac:(idtac).

(** The order that [create-session] is about to store. *)
Lemma order_of_checkout_ok (db : DB) (session : option Session)
    (items : list CartItem) (pointsToRedeem : option Z) :
  (forall s, session = Some s -> is_Some (users db !! userId s)) ->
  order_ok db (order_of_checkout session items pointsToRedeem db).
Proof.
  intros Hs. unfold order_ok, order_of_checkout.
  cbn [o_total o_subtotal o_discount o_points_used o_user_id o_status].
  split; [reflexivity |].
  assert (Hfk : forall uid, userId <$> session = Some uid -> is_Some (users db !! uid)).
  { intros uid E. destruct session as [s |]; [| discriminate].
    injection E as <-. now apply Hs. }
  unfold redemption_of.
  destruct session as [s |]; [| cbn [fst snd]; repeat split; auto; try lia; discriminate].
  destruct pointsToRedeem as [r |];
    [| cbn [fst snd]; repeat split; auto; try lia; discriminate].
  destruct (users db !! userId s) as [u |];
    [| cbn [fst snd]; repeat split; auto; try lia; discriminate].
  destruct ((0 <? r) && (MIN_ORDER_FOR_REDEMPTION * 100 <=? subtotalCents_of items))
    eqn:Hc; [| cbn [fst snd]; repeat split; auto; try lia; discriminate].
  apply andb_true_iff in Hc as [_ Hm]. apply Z.leb_le in Hm.
  cbv zeta. cbn [fst snd]. repeat split; auto; discriminate.
Qed.

Lemma keeps_orders_create_session s i p c (db : DB) :
  consistent db -> keeps_orders db (fst (create_session s i p c db)).
Proof.
  intros Hc H. destruct i as [| it i].
  { unfold create_session, try_catch, ret. simpl. exact H. }
  destruct (create_session_result db s (it :: i) p c Hc ltac:(discriminate))
    as (request & _ & _ & E).
  rewrite E. clear E.
  set (o := order_of_checkout s (it :: i) p db).
  assert (H1 : orders_ok (set_next_id (S (next_id db)) db)).
  { revert H. apply orders_inert; simpl; auto. }
  assert (H2 : (forall s', s = Some s' -> is_Some (users db !! userId s')) ->
               orders_ok (set_orders (insert (next_id db) o)
                            (set_next_id (S (next_id db)) db))).
  { intros Hs k o'. simpl. rewrite lookup_insert. case_decide.
    - intros [= <-]. apply (order_ok_users db); [auto |].
      now apply order_of_checkout_ok.
    - intros Hk. apply (order_ok_users db); [auto |]. exact (H k o' Hk). }
  assert (H3 : forall sid,
             (forall s', s = Some s' -> is_Some (users db !! userId s')) ->
             orders_ok (set_orders (alter (with_stripe_session_id sid) (next_id db))
                          (set_orders (insert (next_id db) o)
                             (set_next_id (S (next_id db)) db)))).
  { intros sid Hs.
    exact (ord_with_stripe_session_id (next_id db) sid _ (H2 Hs)). }
  destruct s as [s |].
  - destruct (users db !! userId s) as [u |] eqn:Hu; [| exact H1].
    assert (Hs : forall s', Some s = Some s' -> is_Some (users db !! userId s'))
      by (intros s' [= <-]; eauto).
    destruct c as [[sid url] |]; cbn [fst]; auto.
  - assert (Hs : forall s', @None Session = Some s' -> is_Some (users db !! userId s'))
      by discriminate.
    destruct c as [[sid url] |]; cbn [fst]; auto.
Qed.

Lemma keeps_orders_handle (r : Request) (db : DB) :
  consistent db -> keeps_orders db (handle r db).
Proof.
  intros Hc.
  destruct r as [e p n | s n | s | s i p c | sg ev | s e]; unfold handle.
  - unfold register. apply respects_try_catch. ord_steps.
  - unfold update_profile. destruct s; [| apply keeps_orders_refl].
    apply respects_try_catch. ord_steps.
  - unfold delete_account. destruct s; [| apply keeps_orders_refl].
    apply respects_try_catch. ord_steps.
  - now apply keeps_orders_create_session.
  - unfold stripe_webhook. destruct (falsy sg); [apply keeps_orders_refl |].
    apply respects_try_catch. ord_steps.
  - unfold newsletter_subscribe. apply respects_try_catch. ord_steps.
Qed.

Lemma reachable_orders_ok (rs : list Request) : orders_ok (run rs empty_db).
Proof.
  assert (H : forall db, consistent db -> orders_ok db -> orders_ok (run rs db)).
  { induction rs as [| r rs IH]; intros db Hc Hdb; [exact Hdb |].
    simpl. apply IH; [now apply keeps_handle | now apply keeps_orders_handle]. }
  apply H; [apply consistent_empty |].
  intros k o Hk. simpl in Hk. rewrite lookup_empty in Hk. discriminate.
Qed.

(** X15: whatever requests were served, every stored order is well
    formed.  Its total is the subtotal less the discount; the discount is
    100 cents for every 20 points used, rounded down; an order without a
    user uses no points; points are used only when the subtotal reaches
    the minimum order of 30 euros; the status is [pending] or [paid];
    and the user of the order, if it has one, exists. *)
Theorem stored_orders_well_formed (rs : list Request) (k : Id) (o : Order) :
  orders (run rs empty_db) !! k = Some o ->
  o_total o = o_subtotal o - o_discount o /\
  o_discount o = o_points_used o / 20 * 100 /\
  (o_user_id o = None -> o_points_used o = 0 /\ o_discount o = 0) /\
  (o_points_used o <> 0 -> 3000 <= o_subtotal o) /\
  (o_status o = pending \/ o_status o = paid) /\
  (forall uid : Id, o_user_id o = Some uid -> is_Some (users (run rs empty_db) !! uid)).
Proof.
  intros Hk. destruct (reachable_orders_ok rs k o Hk) as (H1 & H2 & H3 & H4 & H5 & H6).
  unfold POINTS_PER_EURO_DISCOUNT in H2. unfold MIN_ORDER_FOR_REDEMPTION in H4.
  split; [exact H1 |]. split; [exact H2 |]. split.
  { intros E. specialize (H3 E). rewrite H2, H3. split; reflexivity. }
  split; [intros Hne; specialize (H4 Hne); lia |].
  split; [exact H5 | exact H6].
Qed.

Lemma stored_orders_well_formed_witness :
  exists o : Order,
    orders db_redeemed !! 4%nat = Some o /\
    o_points_used o = 40 /\
    o_discount o = 40 / 20 * 100 /\
    o_total o = o_subtotal o - o_discount o.
Proof.
  eexists. split; [vm_compute; reflexivity |]. split; [reflexivity |].
  match goal with
  | |- o_discount ?o = _ /\ _ =>
      destruct (stored_orders_well_formed
                  ((register_alice :: purchase 2%nat 47000) ++ redeeming_purchase)
                  4%nat o ltac:(vm_compute; reflexivity)) as (H1 & H2 & _)
  end.
  split; [exact H2 | exact H1].
Defined.

(** ** Account deletion *)

Lemma filter_twice {A : Type} (f : A -> bool) (l : list A) :
  List.filter f (List.filter f l) = List.filter f l.
Proof.
  induction l as [| a l IH]; [reflexivity |].
  simpl. destruct (f a) eqn:E; simpl; rewrite ?E; congruence.
Qed.

(** X16: deleting an account, in any database the requests lead to.  The
    request of a signed-in user never fails, also when the user is gone
    already.  It removes the user, the user's ledger entries and the
    user's orders and nothing else: the other users, their entries, the
    other orders and the newsletter subscribers stay as they are.  No
    remaining user has the address of the deleted user, so that the
    address can be registered again; and a second deletion succeeds
    and changes nothing. *)
Theorem account_deletion (rs : list Request) (s : Session) :
  exists db' : DB,
    delete_account (Some s) (run rs empty_db) = (db', Ok tt) /\
    users db' !! userId s = None /\
    (forall k : Id, k <> userId s -> users db' !! k = users (run rs empty_db) !! k) /\
    (forall r : PointsTransaction,
       In r (points_transactions db') <->
       In r (points_transactions (run rs empty_db)) /\ pt_user_id r <> userId s) /\
    (forall (k : Id) (o : Order),
       orders db' !! k = Some o <->
       orders (run rs empty_db) !! k = Some o /\ o_user_id o <> Some (userId s)) /\
    newsletter_subscribers db' = newsletter_subscribers (run rs empty_db) /\
    (forall (u : User) (k : Id) (u' : User),
       users (run rs empty_db) !! userId s = Some u ->
       users db' !! k = Some u' -> u_email u' <> u_email u) /\
    delete_account (Some s) db' = (db', Ok tt).
Proof.
  set (db := run rs empty_db).
  eexists. split; [apply delete_account_result |].
  cbn [users orders points_transactions newsletter_subscribers set_users set_orders
       set_points_transactions].
  split; [apply lookup_delete_eq |].
  split; [intros k Hk; now apply lookup_delete_ne |].
  split.
  { intros r. rewrite filter_In, negb_true_iff, Nat.eqb_neq. reflexivity. }
  split.
  { intros k o. rewrite map_lookup_filter_Some. cbn [snd]. unfold order_of.
    split; intros [Hk Ho]; (split; [exact Hk |]).
    - intros E. rewrite E, Nat.eqb_refl in Ho. discriminate.
    - destruct (o_user_id o) as [uid |]; [| reflexivity].
      apply Nat.eqb_neq. congruence. }
  split; [reflexivity |].
  split.
  { intros u k u' Hu Hk E. apply lookup_delete_Some in Hk as [Hne Hk].
    destruct (reachable_accounts_ok rs) as (_ & (Huniq & _) & _).
    apply Hne. symmetry. exact (Huniq k (userId s) u' u Hk Hu E). }
  rewrite delete_account_result. f_equal.
  unfold set_users, set_orders, set_points_transactions.
  cbn [users orders points_transactions newsletter_subscribers next_id].
  rewrite delete_delete_eq, filter_twice.
  rewrite map_filter_filter_r by auto. reflexivity.
Qed.

Lemma account_deletion_witness :
  exists db' : DB,
    delete_account (Some alice) db_520 = (db', Ok tt) /\
    users db' !! 0%nat = None /\
    delete_account (Some alice) db' = (db', Ok tt).
Proof.
  destruct (account_deletion (register_alice :: purchase 2%nat 47000) alice)
    as (db' & E & Hu & _ & _ & _ & _ & _ & E').
  exists db'. split; [exact E |]. split; [exact Hu | exact E'].
Defined.

(** ** Order routes *)

(** X17: who may see an order.  After a successful checkout the order
    is shown, as pending and with the items of the cart, to everybody if
    it was placed without a session, and otherwise to requests with a
    session of the same user only: every other request, signed in or
    not, is answered 403. *)
Theorem order_shown_to_owner_only (rs : list Request) (session : option Session)
    (items : list CartItem) (pointsToRedeem : option Z) (sid url : string) :
  items <> [] ->
  (forall s, session = Some s -> is_Some (users (run rs empty_db) !! userId s)) ->
  exists (db' : DB) (body : CheckoutBody),
    create_session session items pointsToRedeem (Some (sid, url)) (run rs empty_db)
    = (db', Ok body) /\
    (forall viewer : option Session,
       session = None \/ userId <$> viewer = userId <$> session ->
       exists d : OrderDetails,
         get_order viewer (body_orderId body) db' = OrderOk d /\
         od_id d = body_orderId body /\
         od_status d = pending /\
         od_items d = items /\
         od_pointsEarned d = 0) /\
    (forall viewer : option Session,
       session <> None -> userId <$> viewer <> userId <$> session ->
       get_order viewer (body_orderId body) db' = OrderFail 403 NoPermission).
Proof.
  intros Hitems Hs. set (db := run rs empty_db) in *.
  destruct (create_session_result db session items pointsToRedeem (Some (sid, url))
              (reachable_consistent rs) Hitems) as (request & _ & _ & E).
  assert (E' : create_session session items pointsToRedeem (Some (sid, url)) db
               = (set_orders (alter (with_stripe_session_id sid) (next_id db))
                    (set_orders
                       (insert (next_id db)
                          (order_of_checkout session items pointsToRedeem db))
                       (set_next_id (S (next_id db)) db)),
                  Ok {| sessionId := sid; url := url; body_orderId := next_id db;
                        stripe_request := request |})).
  { rewrite E. destruct session as [s |]; [| reflexivity].
    destruct (Hs s eq_refl) as [u Hu]. now rewrite Hu. }
  rewrite E'. eexists _, _. split; [reflexivity |].
  cbn [body_orderId]. unfold get_order. cbn [orders set_orders].
  rewrite lookup_alter_eq, lookup_insert_eq.
  cbn [fmap option_fmap option_map with_stripe_session_id order_of_checkout o_user_id
       o_status o_items_json o_points_earned].
  split.
  - intros viewer Hv. eexists.
    destruct session as [s |]; cbn [fmap option_fmap option_map].
    + destruct Hv as [Hv | Hv]; [discriminate |].
      destruct viewer as [v |]; [| discriminate].
      cbn [fmap option_fmap option_map] in Hv. injection Hv as ->.
      rewrite Nat.eqb_refl. cbn [negb].
      split; [reflexivity |]. repeat split.
    + split; [reflexivity |]. repeat split.
  - intros viewer Hsome Hv.
    destruct session as [s |]; [| contradiction]. cbn [fmap option_fmap option_map] in *.
    destruct viewer as [v |]; [| reflexivity].
    cbn [fmap option_fmap option_map] in Hv.
    destruct (Nat.eqb_spec (userId v) (userId s)) as [Heq | Hne]; [| reflexivity].
    congruence.
Qed.

Lemma order_shown_to_owner_only_witness :
  exists (db' : DB) (body : CheckoutBody),
    create_session (Some alice) [item 4000] (Some 40)
      (Some ("cs_test", "https://checkout")) db_520 = (db', Ok body) /\
    get_order None (body_orderId body) db' = OrderFail 403 NoPermission /\
    get_order (Some {| userId := 7%nat; email := "eve@lunara.de" |})
      (body_orderId body) db' = OrderFail 403 NoPermission.
Proof.
  destruct (order_shown_to_owner_only (register_alice :: purchase 2%nat 47000)
              (Some alice) [item 4000] (Some 40) "cs_test" "https://checkout"
              ltac:(discriminate)
              ltac:(intros s [= <-]; vm_compute; eauto))
    as (db' & body & E & _ & Hno).
  exists db', body. split; [exact E |].
  split; apply Hno; discriminate.
Defined.

(** ** Sessions *)

Lemma substring_all (s : string) : String.substring 0 (String.length s) s = s.
Proof. induction s as [| a s IH]; [reflexivity |]. simpl. now rewrite IH. Qed.

Lemma prefix_Bearer (h : string) :
  String.prefix "Bearer " h = true -> h = "Bearer " ++ slice7 h.
Proof.
  unfold slice7.
  do 7 (destruct h as [| ? h]; [discriminate |]; cbn [String.prefix];
        match goal with
        | |- context [Ascii.ascii_dec ?a ?b] =>
            destruct (Ascii.ascii_dec a b) as [<- |]; [| discriminate]
        end).
  intros _.
  change ("Bearer " ++ ?s) with
    (String "B" (String "e" (String "a" (String "r" (String "e" (String "r"
       (String " " s))))))).
  simpl. rewrite Nat.sub_0_r, substring_all. reflexivity.
Qed.

Lemma bearer_token_Bearer (token : string) :
  bearer_token (Some ("Bearer " ++ token)) = Some token.
Proof.
  unfold bearer_token, slice7.
  change ("Bearer " ++ token) with
    (String "B" (String "e" (String "a" (String "r" (String "e" (String "r"
       (String " " token))))))).
  simpl. replace (String.prefix "" token) with true by (now destruct token).
  now rewrite Nat.sub_0_r, substring_all.
Qed.

Lemma bearer_token_Some (authHeader : option string) (token : string) :
  bearer_token authHeader = Some token <-> authHeader = Some ("Bearer " ++ token).
Proof.
  split.
  - unfold bearer_token. destruct authHeader as [h |]; [| discriminate].
    destruct (String.prefix "Bearer " h) eqn:Hp; [| discriminate].
    intros [= <-]. f_equal. now apply prefix_Bearer.
  - intros ->. apply bearer_token_Bearer.
Qed.

(** The requests for which [getSession] returns a session. *)
Lemma getSession_Some (authHeader : option string) (now : Z) (kv kv' : SESSIONS)
    (s : SessionData) :
  getSession authHeader now kv = (kv', Some s) <->
  kv' = kv /\
  exists token : string,
    authHeader = Some ("Bearer " ++ token) /\
    kv !! token = Some s /\
    now <= sd_expiresAt s.
Proof.
  unfold getSession. split.
  - destruct (bearer_token authHeader) as [token |] eqn:Ht; [| discriminate].
    apply bearer_token_Some in Ht.
    destruct (kv !! token) as [s' |] eqn:Hk; [| discriminate].
    destruct (sd_expiresAt s' <? now) eqn:He; [discriminate |].
    intros [= <- <-]. split; [reflexivity |].
    exists token. apply Z.ltb_ge in He. auto.
  - intros (-> & token & -> & Hk & He).
    rewrite bearer_token_Bearer, Hk.
    apply Z.ltb_ge in He. now rewrite He.
Qed.

(** X18: which requests have a session.  [getSession] returns a session
    exactly when the header is [Bearer] followed, after one space, by a
    token under which that session is stored, and the session has not
    expired; it then leaves the store as it is. *)
Theorem session_resolution (authHeader : option string) (now : Z) (kv kv' : SESSIONS)
    (s : SessionData) :
  getSession authHeader now kv = (kv', Some s) <->
  kv' = kv /\
  exists token : string,
    authHeader = Some ("Bearer " ++ token) /\
    kv !! token = Some s /\
    now <= sd_expiresAt s.
Proof. apply getSession_Some. Qed.

Lemma session_resolution_witness :
  let s := {| sd_userId := 0%nat; sd_email := "alice@lunara.de";
              sd_name := Some "Alice"; sd_tier := "MOON"; sd_createdAt := 1000;
              sd_expiresAt := 604801000 |} in
  getSession (Some "Bearer 5f2a") 2000 {[ "5f2a" := s ]} = ({[ "5f2a" := s ]}, Some s).
Proof.
  intros s.
  apply (session_resolution (Some "Bearer 5f2a") 2000 {[ "5f2a" := s ]}
           {[ "5f2a" := s ]} s).
  split; [reflexivity |]. exists "5f2a".
  split; [reflexivity |]. split; [apply lookup_singleton_eq | simpl; lia].
Defined.

(** X19: a request that was refused a session is refused one from then
    on, at whatever time it is repeated: a header without a bearer token
    and an unknown token stay what they are, and an expired session is
    removed from the store. *)
Theorem refused_session_stays_refused (authHeader : option string) (now now' : Z)
    (kv kv' : SESSIONS) :
  getSession authHeader now kv = (kv', None) ->
  getSession authHeader now' kv' = (kv', None).
Proof.
  unfold getSession.
  destruct (bearer_token authHeader) as [token |]; [| now intros [= <-]].
  destruct (kv !! token) as [s |] eqn:Hk.
  - destruct (sd_expiresAt s <? now); [| discriminate].
    intros [= <-]. now rewrite lookup_delete_eq.
  - intros [= <-]. now rewrite Hk.
Qed.

Lemma refused_session_stays_refused_witness :
  let s := {| sd_userId := 0%nat; sd_email := "alice@lunara.de";
              sd_name := Some "Alice"; sd_tier := "MOON"; sd_createdAt := 1000;
              sd_expiresAt := 604801000 |} in
  getSession (Some "Bearer 5f2a") 2000 (delete "5f2a" {[ "5f2a" := s ]})
  = (delete "5f2a" {[ "5f2a" := s ]}, None).
Proof.
  intros s.
  apply (refused_session_stays_refused (Some "Bearer 5f2a") 604801001 2000
           {[ "5f2a" := s ]}).
  vm_compute. reflexivity.
Defined.

Lemma logout_ends_self (authHeader : option string) (now : Z) (kv : SESSIONS) :
  getSession authHeader now (logout authHeader kv) = (logout authHeader kv, None).
Proof.
  unfold getSession, logout.
  destruct (bearer_token authHeader) as [token |]; [| reflexivity].
  now rewrite lookup_delete_eq.
Qed.

(** X20: logging out ends the session of the request's token and no
    other.  After it, a request with the same header has no session at
    any time, and a request with another token gets what it got before. *)
Theorem logout_ends_session (authHeader other : option string) (now : Z)
    (kv : SESSIONS) :
  getSession authHeader now (logout authHeader kv) = (logout authHeader kv, None) /\
  (bearer_token other <> bearer_token authHeader ->
   snd (getSession other now (logout authHeader kv)) = snd (getSession other now kv)).
Proof.
  split; [apply logout_ends_self |].
  unfold getSession, logout. intros Hne.
  destruct (bearer_token other) as [t |]; [| reflexivity].
  destruct (bearer_token authHeader) as [token |]; [| reflexivity].
  rewrite lookup_delete_ne by congruence.
  destruct (kv !! t) as [s |]; [| reflexivity].
  destruct (sd_expiresAt s <? now); reflexivity.
Qed.

Lemma logout_ends_session_witness :
  let s := {| sd_userId := 0%nat; sd_email := "alice@lunara.de";
              sd_name := Some "Alice"; sd_tier := "MOON"; sd_createdAt := 1000;
              sd_expiresAt := 604801000 |} in
  let kv : SESSIONS := {[ "5f2a" := s; "77c0" := s ]} in
  snd (getSession (Some "Bearer 77c0") 2000 (logout (Some "Bearer 5f2a") kv)) = Some s.
Proof.
  intros s kv.
  rewrite (proj2 (logout_ends_session (Some "Bearer 5f2a") (Some "Bearer 77c0") 2000 kv)).
  - vm_compute. reflexivity.
  - vm_compute. discriminate.
Defined.

(** What a successful registration leaves in the database. *)
Lemma register_ok_user (e p n : option string) (db db' : DB) (body : RegisterBody) :
  register e p n db = (db', Ok body) ->
  users db' !! rb_id body
  = Some {| u_email := rb_email body; u_name := rb_name body;
            u_points_balance := SIGNUP_BONUS; u_tier := "MOON" |}.
Proof.
  unfold register, try_catch.
  destruct (falsy e || falsy p); [discriminate |].
  destruct (_ <? 8)%nat; [discriminate |].
  unfold bind at 1. unfold select_user_id_by_email at 1.
  destruct (fst <$> find _ _); [discriminate |].
  unfold bind, generateId, insert_user, insert_points_transaction.
  cbn [fst snd next_id set_users set_next_id points_transactions users
       pt_id pt_user_id u_email].
  destruct (users db !! next_id db); [discriminate |].
  destruct (select_user_id_by_email _ _) as [db0 [[k |] |]]; try discriminate.
  cbn [fst snd next_id set_users set_next_id points_transactions users
       pt_id pt_user_id u_email].
  destruct (existsb _ _); [discriminate |].
  rewrite lookup_insert_eq.
  intros [= <- <-]. cbn [rb_id rb_email rb_name users set_points_transactions
                         set_next_id set_users].
  apply lookup_insert_eq.
Qed.

(** X21: registration signs the new user in for seven days.  After a
    successful registration a request with the returned token has, up to
    seven days later, the session of the new user, under which
    [GET /api/points] shows the 50 welcome points, tier MOON and 450
    points to go to the next tier; after that the token has no session
    any more. *)
Theorem registration_signs_in (e p n : option string) (token : string) (now : Z)
    (db db' : DB) (kv kv' : SESSIONS) (body : RegisterBody) :
  register_request e p n token now db kv = (db', kv', Ok body) ->
  (forall now' : Z,
     now' <= now + 604800000 ->
     exists (s : SessionData) (pb : PointsBody),
       getSession (Some ("Bearer " ++ token)) now' kv' = (kv', Some s) /\
       sd_userId s = rb_id body /\
       sd_email s = rb_email body /\
       get_points (Some (session_of s)) db' = Ok pb /\
       pb_points pb = 50 /\
       pb_tier pb = "MOON" /\
       pb_pointsToNext pb = 450) /\
  (forall now' : Z,
     now + 604800000 < now' ->
     snd (getSession (Some ("Bearer " ++ token)) now' kv') = None).
Proof.
  unfold register_request.
  destruct (register e p n db) as [db1 [b | st err]] eqn:E; [| discriminate].
  intros [= <- <- <-]. pose proof (register_ok_user _ _ _ _ _ _ E) as Hu.
  unfold getSession. rewrite bearer_token_Bearer, lookup_insert_eq.
  cbn [sd_expiresAt]. split.
  - intros now' Hn.
    replace (now + 7 * 24 * 60 * 60 * 1000 <? now') with false
      by (symmetry; apply Z.ltb_ge; lia).
    eexists _, _. split; [reflexivity |].
    cbn [sd_userId sd_email]. split; [reflexivity |]. split; [reflexivity |].
    unfold get_points, session_of. cbn [userId sd_userId]. rewrite Hu.
    split; [reflexivity |]. repeat split.
  - intros now' Hn.
    replace (now + 7 * 24 * 60 * 60 * 1000 <? now') with true
      by (symmetry; apply Z.ltb_lt; lia).
    reflexivity.
Qed.

Lemma registration_signs_in_witness :
  exists (s : SessionData) (pb : PointsBody),
    getSession (Some "Bearer 5f2a") 86400000
      (snd (fst (register_request (Some "Alice@Lunara.de") (Some "moonlight")
                   (Some "Alice") "5f2a" 1000 empty_db ∅)))
    = (snd (fst (register_request (Some "Alice@Lunara.de") (Some "moonlight")
                   (Some "Alice") "5f2a" 1000 empty_db ∅)), Some s) /\
    get_points (Some (session_of s)) db_registered = Ok pb /\
    pb_points pb = 50.
Proof.
  destruct (proj1 (registration_signs_in (Some "Alice@Lunara.de") (Some "moonlight")
                     (Some "Alice") "5f2a" 1000 empty_db db_registered ∅
                     (snd (fst (register_request (Some "Alice@Lunara.de")
                                  (Some "moonlight") (Some "Alice") "5f2a" 1000
                                  empty_db ∅)))
                     {| rb_id := 0%nat; rb_email := "alice@lunara.de";
                        rb_name := Some "Alice"; rb_points := 50; rb_tier := "MOON" |}
                     ltac:(vm_compute; reflexivity))
              86400000 ltac:(lia))
    as (s & pb & Hs & _ & _ & Hp & Hb & _).
  exists s, pb. split; [exact Hs |]. split; [exact Hp | exact Hb].
Defined.

(** X22: deleting an account ends the session of the request and no
    other.  A request with a session is answered with success; the user
    is gone, the same header has no session from then on, and a session
    of the same user under another token is still resolved, although
    [GET /api/points] then finds no user for it. *)
Theorem deletion_ends_own_session_only (authHeader other : option string)
    (now now' : Z) (db : DB) (kv : SESSIONS) (s s' : SessionData) :
  getSession authHeader now kv = (kv, Some s) ->
  getSession other now' kv = (kv, Some s') ->
  bearer_token other <> bearer_token authHeader ->
  sd_userId s' = sd_userId s ->
  exists (db' : DB) (kv' : SESSIONS),
    delete_request authHeader now db kv = (db', kv', Ok tt) /\
    users db' !! sd_userId s = None /\
    (forall t : Z, getSession authHeader t kv' = (kv', None)) /\
    getSession other now' kv' = (kv', Some s') /\
    get_points (Some (session_of s')) db' = Fail 404 UserNotFound.
Proof.
  intros Hs Hs' Hne Hid. unfold delete_request. rewrite Hs.
  rewrite delete_account_result.
  eexists _, _. split; [reflexivity |].
  cbn [users set_users session_of userId].
  split; [apply lookup_delete_eq |].
  split; [intros t; apply (logout_ends_self authHeader t kv) |].
  split.
  - apply getSession_Some in Hs' as (_ & token & -> & Hk & He).
    apply getSession_Some. split; [reflexivity |].
    exists token. split; [reflexivity |]. split; [| exact He].
    unfold logout. rewrite bearer_token_Bearer in Hne.
    destruct (bearer_token authHeader) as [t |]; [| exact Hk].
    rewrite lookup_delete_ne by congruence. exact Hk.
  - unfold get_points, session_of. cbn [userId users set_users].
    rewrite Hid, lookup_delete_eq. reflexivity.
Qed.

Lemma deletion_ends_own_session_only_witness :
  let s := {| sd_userId := 0%nat; sd_email := "alice@lunara.de";
              sd_name := Some "Alice"; sd_tier := "MOON"; sd_createdAt := 1000;
              sd_expiresAt := 604801000 |} in
  let kv : SESSIONS := {[ "5f2a" := s; "77c0" := s ]} in
  exists (db' : DB) (kv' : SESSIONS),
    delete_request (Some "Bearer 5f2a") 2000 db_520 kv = (db', kv', Ok tt) /\
    getSession (Some "Bearer 77c0") 3000 kv' = (kv', Some s) /\
    get_points (Some (session_of s)) db' = Fail 404 UserNotFound.
Proof.
  intros s kv.
  destruct (deletion_ends_own_session_only (Some "Bearer 5f2a") (Some "Bearer 77c0")
              2000 3000 db_520 kv s s
              ltac:(vm_compute; reflexivity) ltac:(vm_compute; reflexivity)
              ltac:(vm_compute; discriminate) ltac:(reflexivity))
    as (db' & kv' & E & _ & _ & Hother & Hp).
  exists db', kv'. split; [exact E |]. split; [exact Hother | exact Hp].
Defined.

(** ** Quote and checkout *)

(** X23: the quote of [calculate-discount] against what
    [create-session] charges, for a signed-in user and a cart that
    reaches the minimum order.  For a request of more than no points the
    two agree: the order records the points, the discount and the total
    that were quoted.  For a missing request or one of 0 points they do
    not: the quote is for the maximum usable points, the order redeems
    none and its total is the subtotal. *)
Theorem quote_and_checkout (rs : list Request) (s : Session) (u : User)
    (items : list CartItem) (requested : option Z) (sid url : string) :
  users (run rs empty_db) !! userId s = Some u ->
  items <> [] ->
  MIN_ORDER_FOR_REDEMPTION * 100 <= subtotalCents_of items ->
  exists (quote : DiscountBody) (db' : DB) (body : CheckoutBody) (o : Order),
    calculate_discount (Some s) (subtotalCents_of items) requested (run rs empty_db)
    = Ok quote /\
    create_session (Some s) items requested (Some (sid, url)) (run rs empty_db)
    = (db', Ok body) /\
    orders db' !! body_orderId body = Some o /\
    (forall r : Z,
       requested = Some r -> 0 < r ->
       o_points_used o = pointsToUse quote /\
       o_discount o = discountCents quote /\
       o_total o = newTotal quote) /\
    (requested = None \/ requested = Some 0 ->
     pointsToUse quote = maxPointsUsable quote /\
     o_points_used o = 0 /\
     o_discount o = 0 /\
     o_total o = subtotalCents_of items).
Proof.
  intros Hu Hitems Hmin. set (db := run rs empty_db) in *.
  destruct (create_session_result db (Some s) items requested (Some (sid, url))
              (reachable_consistent rs) Hitems) as (request & _ & _ & E).
  rewrite Hu in E. rewrite E.
  rewrite (calculate_discount_ok db s u _ requested Hu Hmin).
  eexists _, _, _, _. split; [reflexivity |]. split; [reflexivity |].
  cbn [body_orderId orders set_orders].
  rewrite lookup_alter_eq, lookup_insert_eq. cbn [fmap option_fmap option_map].
  split; [reflexivity |].
  unfold with_stripe_session_id, order_of_checkout, redemption_of.
  cbn [o_points_used o_discount o_total pointsToUse discountCents newTotal
       maxPointsUsable].
  rewrite Hu. unfold POINTS_PER_EURO_DISCOUNT. split.
  - intros r -> Hr.
    replace ((0 <? r) && (MIN_ORDER_FOR_REDEMPTION * 100 <=? subtotalCents_of items))
      with true
      by (symmetry; apply andb_true_iff; split; [apply Z.ltb_lt | apply Z.leb_le]; lia).
    cbv zeta. cbn [fst snd].
    replace (or_default (Some r) _) with r
      by (unfold or_default; destruct (Z.eqb_spec r 0); [lia | reflexivity]).
    repeat split.
  - intros [-> | ->]; [| change (0 <? 0) with false; cbn [andb]]; cbn [fst snd];
      (split; [apply Z.min_id | repeat split; lia]).
Qed.

Lemma quote_and_checkout_witness :
  exists (quote : DiscountBody) (db' : DB) (body : CheckoutBody) (o : Order),
    calculate_discount (Some alice) (subtotalCents_of [item 4000]) (Some 40) db_520
    = Ok quote /\
    create_session (Some alice) [item 4000] (Some 40)
      (Some ("cs_test", "https://checkout")) db_520 = (db', Ok body) /\
    orders db' !! body_orderId body = Some o /\
    o_discount o = discountCents quote /\
    o_total o = newTotal quote.
Proof.
  destruct (quote_and_checkout (register_alice :: purchase 2%nat 47000) alice
              {| u_email := "alice@lunara.de"; u_name := Some "Alice";
                 u_points_balance := 520; u_tier := "ECLIPSE" |}
              [item 4000] (Some 40) "cs_test" "https://checkout"
              ltac:(vm_compute; reflexivity) ltac:(discriminate)
              ltac:(vm_compute; discriminate))
    as (quote & db' & body & o & Hq & E & Ho & Hr & _).
  destruct (Hr 40 eq_refl ltac:(lia)) as (_ & Hd & Ht).
  exists quote, db', body, o. repeat (split; [assumption |]). exact Ht.
Defined.
